(** * Payment webhook reconciliation: the Stripe [POST] handler

    A shallow embedding of the webhook route handler ([POST], beginning
    [import { NextRequest, NextResponse } from 'next/server']) and of the
    [Payment] model of the Prisma schema, with the properties the
    specification states about them. *)

From Stdlib Require Import ZArith String DecimalString SpecFloat.
From stdpp Require Import gmap strings.

Local Open Scope string_scope.
Local Open Scope Z_scope.

(** ** JavaScript numbers

    A JS [number] is an IEEE 754 binary64 value.  It is modelled by the
    Standard Library's [spec_float] with 53 bits of precision and a maximal
    exponent of 1024; the operations are the library's executable
    specifications of the correctly rounded ones. *)
Module Number.

Definition prec : Z := 53.
Definition emax : Z := 1024.

(** The number denoted by an integer literal or an integer JSON value. *)
Definition of_Z (n : Z) : spec_float := binary_normalize prec emax n 0 false.

(** [x / y] *)
Definition div (x y : spec_float) : spec_float := SFdiv prec emax x y.

(** The integer nearest to [m * 2^e]; of two equally near, the larger one
    (step 8.a of [Number.prototype.toFixed] with zero fraction digits). *)
Definition nearest_integer (m : positive) (e : Z) : Z :=
  if 0 <=? e then Z.shiftl (Z.pos m) e
  else Z.shiftr (Z.pos m + Z.shiftl 1 (- e - 1)) (- e).

Definition digits (n : Z) : string :=
  NilZero.string_of_uint (N.to_uint (Z.to_N n)).

(** [x.toFixed()]: the argument is absent, so the number of fraction
    digits is 0.  A value that is not finite is rendered by its name.
    From 10^21 on ECMAScript switches to the exponent notation of
    [Number::toString]; that notation is not modelled, the integer is
    written out in full there (an amount below 2^53 divided by 100 is
    far below that bound). *)
Definition toFixed (x : spec_float) : string :=
  match x with
  | S754_nan => "NaN"
  | S754_infinity false => "Infinity"
  | S754_infinity true => "-Infinity"
  | S754_zero _ => "0"
  | S754_finite s m e =>
      (if s then "-" else "") ++ digits (nearest_integer m e)
  end.

End Number.

(** ** JavaScript dates

    A [Date] is a count of milliseconds since the epoch. *)
Module Date.

Definition t : Type := Z.

(** [n] in decimal on at least [w] digits, zeros in front. *)
Definition pad (w : nat) (n : Z) : string :=
  let d := Number.digits n in
  String.concat "" (repeat "0" (w - String.length d)%nat) ++ d.

(** The proleptic Gregorian date of a day number (days since the epoch):
    year, month and day of the month. *)
Definition civil (days : Z) : Z * Z * Z :=
  let z := days + 719468 in
  let era := z / 146097 in
  let doe := z - era * 146097 in
  let yoe := (doe - doe / 1460 + doe / 36524 - doe / 146096) / 365 in
  let doy := doe - (365 * yoe + yoe / 4 - yoe / 100) in
  let mp := (5 * doy + 2) / 153 in
  let d := doy - (153 * mp + 2) / 5 + 1 in
  let m := if mp <? 10 then mp + 3 else mp - 9 in
  let y := yoe + era * 400 + (if m <=? 2 then 1 else 0) in
  (y, m, d).

Definition year (y : Z) : string :=
  if (0 <=? y) && (y <=? 9999) then pad 4 y
  else (if y <? 0 then "-" else "+") ++ pad 6 (Z.abs y).

(** [d.toISOString()]: [YYYY-MM-DDTHH:mm:ss.sssZ]. *)
Definition toISOString (ms : t) : string :=
  let '(y, m, d) := civil (ms / 86400000) in
  let r := ms mod 86400000 in
  year y ++ "-" ++ pad 2 m ++ "-" ++ pad 2 d ++ "T"
    ++ pad 2 (r / 3600000) ++ ":" ++ pad 2 (r / 60000 mod 60) ++ ":"
    ++ pad 2 (r / 1000 mod 60) ++ "." ++ pad 3 (r mod 1000) ++ "Z".

End Date.

(** ** JSON values, as far as the handler builds them *)
#[warnings="-register-all"]
Inductive Json : Type :=
  | JNull
  | JString (s : string)
  | JObject (fields : list (string * Json)).

(** A [string | null] as a JSON value. *)
Definition JNullable (v : option string) : Json :=
  match v with
  | Some s => JString s
  | None => JNull
  end.

(** [!v] for a value of type [string | null | undefined]: the empty string is
    falsy like [null] and [undefined]. *)
Definition not_ (v : option string) : bool :=
  match v with
  | None => true
  | Some s => String.eqb s ""
  end.

(** ** The Payment model of the schema

    [amount] is a [Decimal(12, 2)], kept as its count of hundredths; the
    relation fields [user] and [invoices] are not columns. *)
Record Payment : Type := {
  id : string;
  userId : string;
  amount : Z;
  paymentMethod : string;
  paymentResult : Json;
  isPaid : bool;
  paidAt : option Date.t;
  createdAt : Date.t;
  emailSent : bool;
  emailSentAt : option Date.t
}.

(** The Payment table, by primary key. *)
Abbreviation Store := (gmap string Payment).

(** ** The provider's events *)
Module Stripe.

Record Charge : Type := {
  id : string;
  amount : Z;
  metadata : option (gmap string string);
  billing_details_email : option string
}.

(** [event.data.object] is read as a charge ([as Stripe.Charge]) and only
    for a [charge.succeeded] event. *)
Record Event : Type := {
  type : string;
  data_object : Charge
}.

(** [charge.metadata?.key] and [charge.metadata.key] (the latter only where
    the metadata is known to be there). *)
Definition metadata_get (charge : Charge) (key : string) : option string :=
  metadata charge ≫= (.!! key).

End Stripe.

(** ** Exceptions and effects *)

(** A thrown value: an [Error] with its message, or anything else. *)
Inductive Thrown : Type :=
  | Error (message : string)
  | NotAnError.

(** An asynchronous computation over the Payment table that returns or
    throws. *)
Definition Action (A : Type) : Type := Store -> (Thrown + A) * Store.

Definition ret {A} (a : A) : Action A := fun s => (inr a, s).

Definition bind {A B} (m : Action A) (k : A -> Action B) : Action B :=
  fun s =>
    match m s with
    | (inr a, s') => k a s'
    | (inl e, s') => (inl e, s')
    end.

(** A call that touches no table: its result or its exception. *)
Definition lift {A} (r : Thrown + A) : Action A := fun s => (r, s).

(** [try { m } catch (error) { return h error }] *)
Definition try_catch {A} (m : Action A) (h : Thrown -> A) : Store -> A * Store :=
  fun s =>
    match m s with
    | (inr a, s') => (a, s')
    | (inl e, s') => (h e, s')
    end.

Notation "x <- m ;; k" := (bind m (fun x => k))
  (at level 100, m at next level, right associativity).
Notation "m ;;; k" := (bind m (fun _ => k))
  (at level 100, right associativity).

(** ** Responses *)
Record NextResponse : Type := {
  status : Z;
  body : Json
}.

Module NextResponse.
(** [NextResponse.json(body, { status })]; the status is 200 when no
    [init] is given. *)
Definition json (body : Json) (init : option Z) : NextResponse :=
  {| status := default 200 init; body := body |}.
End NextResponse.

(** ** Requests: the raw body and the headers (names in lower case) *)
Record NextRequest : Type := {
  text : string;
  headers : gmap string string
}.

(** ** The webhook handler *)
Section Webhook.

(** [stripe.webhooks.constructEvent(body, signature, secret)] of the
    provider's SDK: verifies the signature over the raw body and only then
    parses the body into an event; throws when the verification fails.  The
    SDK also compares the timestamp in the header with the clock, so the
    parameter stands for its behaviour at the instant of one call: two
    deliveries handled at different instants each have their own. *)
Variable constructEvent : string -> string -> option string -> Thrown + Stripe.Event.

(** [process.env.STRIPE_WEBHOOK_SECRET] *)
Variable STRIPE_WEBHOOK_SECRET : option string.

(** [updatePaymentToPaid(paymentId, paymentResult)], imported from
    [@/lib/actions/payment.actions].  The first argument is [undefined]
    when the metadata has no such key. *)
Variable updatePaymentToPaid : option string -> Json -> Action unit.

(** [(charge.amount / 100).toFixed()] *)
Definition major_units (charge : Stripe.Charge) : string :=
  Number.toFixed (Number.div (Number.of_Z (Stripe.amount charge)) (Number.of_Z 100)).

(** The object literal handed to [updatePaymentToPaid]; [now] is the
    instant read by [new Date()]. *)
Definition payment_result (charge : Stripe.Charge) (now : Date.t) : Json :=
  JObject
    [ ("id", JString (Stripe.id charge));
      ("status", JString "COMPLETED");
      ("email_address", JNullable (Stripe.billing_details_email charge));
      ("pricePaid", JString (major_units charge));
      ("amount", JString (major_units charge));
      ("created_at", JString (Date.toISOString now)) ].

Definition error_body (msg : string) : Json := JObject [("error", JString msg)].
Definition message_body (msg : string) : Json := JObject [("message", JString msg)].

(** The [try] block.  The two [console] calls write to the log only and
    are left out. *)
Definition POST_try (req : NextRequest) (now : Date.t) : Action NextResponse :=
  let body := text req in
  let signature := headers req !! "stripe-signature" in
  if not_ signature then
    ret (NextResponse.json (error_body "No signature header") (Some 400))
  else
    event <- lift (constructEvent body (default "" signature) STRIPE_WEBHOOK_SECRET) ;;
    if String.eqb (Stripe.type event) "charge.succeeded" then
      let charge := Stripe.data_object event in
      if not_ (Stripe.metadata_get charge "orderId") then
        ret (NextResponse.json
               (error_body "No orderId found in payment metadata") (Some 400))
      else
        updatePaymentToPaid (Stripe.metadata_get charge "paymentId")
                            (payment_result charge now) ;;;
        ret (NextResponse.json
               (message_body "updateOrderToPaid was successful") None)
    else
      ret (NextResponse.json (message_body "event is not charge.succeeded") None).

(** The [catch] block. *)
Definition POST_catch (error : Thrown) : NextResponse :=
  NextResponse.json
    (JObject
       [ ("error", JString "Failed to create conversation");
         ("message", JString match error with
                             | Error message => message
                             | NotAnError => "Unknown error"
                             end) ])
    (Some 500).

Definition POST (req : NextRequest) (now : Date.t) : Store -> NextResponse * Store :=
  try_catch (POST_try req now) POST_catch.

End Webhook.

(** ** The store primitive *)

(** The row of a Payment once settled: [isPaid], [paidAt] and
    [paymentResult] are written, the other columns are kept. *)
Definition paid (p : Payment) (now : Date.t) (result : Json) : Payment :=
  {| id := id p;
     userId := userId p;
     amount := amount p;
     paymentMethod := paymentMethod p;
     paymentResult := result;
     isPaid := true;
     paidAt := Some now;
     createdAt := createdAt p;
     emailSent := emailSent p;
     emailSentAt := emailSentAt p |}.

(** Modelled from the spec: [updatePaymentToPaid] of
    [lib/actions/payment.actions] is not among the sources.  The
    specification's algorithm (steps 3 to 5) resolves the Payment and fails
    with [UnknownPayment] when there is none; returns without mutation when
    the Payment is already paid; otherwise sets [isPaid], [paidAt = now] and
    [paymentResult] in one write. *)
Definition markPaymentPaid (now : Date.t)
    (paymentId : option string) (result : Json) : Action unit :=
  fun store =>
    match paymentId with
    | None => (inl (Error "UnknownPayment"), store)
    | Some pid =>
        match store !! pid with
        | None => (inl (Error "UnknownPayment"), store)
        | Some p =>
            if isPaid p then (inr tt, store)
            else (inr tt, <[pid := paid p now result]> store)
        end
    end.

(** The endpoint: the handler over the spec's store primitive, both reading
    the clock at [now]. *)
Definition endpoint (constructEvent : string -> string -> option string -> Thrown + Stripe.Event)
    (secret : option string) (req : NextRequest) (now : Date.t)
  : Store -> NextResponse * Store :=
  POST constructEvent secret (markPaymentPaid now) req now.

(** ** Vocabulary of the statements *)

(** The request carries a signature header and the SDK accepts it for the
    raw body, yielding [event]. *)
Definition verifies (constructEvent : string -> string -> option string -> Thrown + Stripe.Event)
    (secret : option string) (req : NextRequest) (event : Stripe.Event) : Prop :=
  not_ (headers req !! "stripe-signature") = false ∧
  constructEvent (text req) (default "" (headers req !! "stripe-signature")) secret
    = inr event.

(** The request carries a signature header and the SDK rejects it for the
    raw body, throwing [e]. *)
Definition fails_verification
    (constructEvent : string -> string -> option string -> Thrown + Stripe.Event)
    (secret : option string) (req : NextRequest) (e : Thrown) : Prop :=
  not_ (headers req !! "stripe-signature") = false ∧
  constructEvent (text req) (default "" (headers req !! "stripe-signature")) secret
    = inl e.

(** [paidAt] is set exactly when [isPaid] holds. *)
Definition payment_inv (p : Payment) : Prop :=
  isPaid p = true ↔ is_Some (paidAt p).

(** A delivery is a request and the instant at which it is handled; the
    deliveries of a list are handled one after the other. *)
Definition deliver (constructEvent : string -> string -> option string -> Thrown + Stripe.Event)
    (secret : option string) (store : Store) (d : NextRequest * Date.t) : Store :=
  (endpoint constructEvent secret d.1 d.2 store).2.

Definition run (constructEvent : string -> string -> option string -> Thrown + Stripe.Event)
    (secret : option string) (ds : list (NextRequest * Date.t)) (store : Store) : Store :=
  fold_left (deliver constructEvent secret) ds store.

(** ** Concrete deliveries for the examples *)
Module Sample.

(** An SDK stand-in that accepts exactly the listed (body, signature)
    pairs and parses each to the event listed with it. *)
Fixpoint constructEvent (signed : list (string * string * Stripe.Event))
    (body signature : string) (secret : option string) : Thrown + Stripe.Event :=
  match signed with
  | [] => inl (Error "No signatures found matching the expected signature for payload")
  | (b, sg, ev) :: rest =>
      if String.eqb b body && String.eqb sg signature then inr ev
      else constructEvent rest body signature secret
  end.

Definition secret : option string := Some "whsec_test".

Definition request (body signature : string) : NextRequest :=
  {| text := body; headers := {[ "stripe-signature" := signature ]} |}.

Definition unsigned_request (body : string) : NextRequest :=
  {| text := body; headers := ∅ |}.

Definition charge (amount : Z) (metadata : option (gmap string string)) : Stripe.Charge :=
  {| Stripe.id := "ch_1";
     Stripe.amount := amount;
     Stripe.metadata := metadata;
     Stripe.billing_details_email := Some "payer@example.com" |}.

Definition succeeded (amount : Z) (metadata : option (gmap string string)) : Stripe.Event :=
  {| Stripe.type := "charge.succeeded"; Stripe.data_object := charge amount metadata |}.

Definition refunded : Stripe.Event :=
  {| Stripe.type := "charge.refunded"; Stripe.data_object := charge 12345 None |}.

Definition both_ids : option (gmap string string) :=
  Some {[ "orderId" := "o1"; "paymentId" := "p1" ]}.

(** The deliveries the stand-in accepts. *)
Definition signed : list (string * string * Stripe.Event) :=
  [ ("evt_paid", "t=1,v1=aa", succeeded 12345 both_ids);
    ("evt_other", "t=1,v1=bb", refunded);
    ("evt_no_metadata", "t=1,v1=cc", succeeded 12345 None);
    ("evt_empty_order", "t=1,v1=dd",
      succeeded 12345 (Some {[ "orderId" := ""; "paymentId" := "p1" ]}));
    ("evt_order_only", "t=1,v1=ee", succeeded 12345 (Some {[ "orderId" := "o1" ]})) ].

Definition pending : Payment :=
  {| id := "p1"; userId := "u1"; amount := 12345; paymentMethod := "Stripe";
     paymentResult := JObject []; isPaid := false; paidAt := None;
     createdAt := 1700000000000; emailSent := false; emailSentAt := None |}.

Definition store : Store := {[ "p1" := pending ]}.

End Sample.

(** ** Further vocabulary: which deliveries reach the store *)

(** The handler gets as far as the store call: the signature header is
    there, the SDK accepts it, the event is a [charge.succeeded] and its
    metadata has a truthy [orderId]. *)
Definition reaches_store
    (constructEvent : string -> string -> option string -> Thrown + Stripe.Event)
    (secret : option string) (req : NextRequest) : bool :=
  negb (not_ (headers req !! "stripe-signature")) &&
  match constructEvent (text req) (default "" (headers req !! "stripe-signature")) secret with
  | inr event =>
      String.eqb (Stripe.type event) "charge.succeeded" &&
      negb (not_ (Stripe.metadata_get (Stripe.data_object event) "orderId"))
  | inl _ => false
  end.

(** The table after the handler has served a list of deliveries in turn,
    over any store primitive. *)
Definition serve_all
    (constructEvent : string -> string -> option string -> Thrown + Stripe.Event)
    (secret : option string) (updatePaymentToPaid : option string -> Json -> Action unit)
    (ds : list (NextRequest * Date.t)) (store : Store) : Store :=
  fold_left
    (λ s d, (POST constructEvent secret updatePaymentToPaid d.1 d.2 s).2) ds store.

(** Two more signed deliveries: the same charge under another [orderId]. *)
Module Sample2.

Definition signed : list (string * string * Stripe.Event) :=
  [ ("evt_paid", "t=1,v1=aa", Sample.succeeded 12345 Sample.both_ids);
    ("evt_paid_bis", "t=2,v1=ff",
      Sample.succeeded 12345 (Some {[ "orderId" := "o2"; "paymentId" := "p1" ]}));
    ("evt_other", "t=1,v1=bb", Sample.refunded) ].

End Sample2.

(** A later redelivery of the first event of [Sample.signed]: the provider
    signs the same body anew, and by then the SDK no longer accepts the
    header of the first delivery. *)
Module SampleRedelivery.

Definition signed : list (string * string * Stripe.Event) :=
  [ ("evt_paid", "t=601,v1=a9", Sample.succeeded 12345 Sample.both_ids) ].

End SampleRedelivery.

(** ** React elements, as the pages build them *)
Module React.

(** The value of a prop, as far as the pages pass them: a string, a number,
    a boolean, a reference to an imported function by its name, or a value
    of the application's data. *)
Inductive PropValue (D : Type) : Type :=
  | PString (s : string)
  | PNumber (x : spec_float)
  | PBool (b : bool)
  | PRef (name : string)
  | PData (d : D).

(** What a JSX expression evaluates to: text, an element with its type, key,
    props and children, an array of nodes, or [false], which renders
    nothing. *)
#[warnings="-register-all"]
Inductive Node (D : Type) : Type :=
  | Text (s : string)
  | Element (type : string) (key : option string)
            (props : list (string * PropValue D)) (children : list (Node D))
  | Array (items : list (Node D))
  | False_.

Arguments PString {D} s.
Arguments PNumber {D} x.
Arguments PBool {D} b.
Arguments PRef {D} name.
Arguments PData {D} d.
Arguments Text {D} s.
Arguments Element {D} type key props children.
Arguments Array {D} items.
Arguments False_ {D}.

(** The elements of a given type in a tree, in document order. *)
Fixpoint elements {D} (ty : string) (n : Node D) : list (Node D) :=
  match n with
  | Text _ => []
  | Element t _ _ children =>
      (if String.eqb t ty then [n] else []) ++ concat (map (elements ty) children)
  | Array items => concat (map (elements ty) items)
  | False_ => []
  end.

(** The value of a prop of an element. *)
Definition prop {D} (name : string) (n : Node D) : option (PropValue D) :=
  match n with
  | Element _ _ props _ => snd <$> List.find (λ kv, String.eqb kv.1 name) props
  | _ => None
  end.

End React.

(** [value || fallback] on strings, and on numbers (zero and NaN are
    falsy). *)
Definition or_string (value : option string) (fallback : string) : string :=
  if not_ value then fallback else default fallback value.

Definition or_number (value fallback : spec_float) : spec_float :=
  match value with
  | S754_zero _ | S754_nan => fallback
  | _ => value
  end.

(** ** The session of the authentication library: [session?.user?.id] *)
Module Auth.

Record User : Type := { id : option string }.
Record Session : Type := { user : option User }.

(** [!!session?.user]: an object is truthy. *)
Definition has_user (session : option Session) : bool :=
  match session ≫= user with
  | Some _ => true
  | None => false
  end.

(** [session?.user?.id] *)
Definition user_id (session : option Session) : option string :=
  (session ≫= user) ≫= id.

End Auth.

(** ** The TaskAssignment model of the schema (the relation fields are not
    columns) *)
Module TaskAssignment.

Record t : Type := {
  id : string;
  taskId : string;
  clientId : string;
  contractorId : string;
  statusId : string;
  createdAt : Date.t;
  completedAt : option Date.t
}.

End TaskAssignment.

(** What [getAllTaskAssignmentsByClientId] resolves to. *)
Record Assignments : Type := {
  data : list TaskAssignment.t;
  totalPages : Z
}.

(** The search parameters of the URL; a parameter that is not in the URL is
    [undefined]. *)
Record SearchParams : Type := {
  page : option string;
  query : option string;
  category : option string
}.

(** What a server component comes to: a redirect (which [redirect] raises,
    ending the render) or the tree it returns. *)
Inductive Rendering (D : Type) : Type :=
  | Redirected (url : string)
  | Rendered (view : React.Node D).

Arguments Redirected {D} url.
Arguments Rendered {D} view.

(** ** The client's task assignments page *)
Section ClientTaskAssignmentsPage.

Import React.

(** [Number(value)] of the language. *)
Variable ToNumber : option string -> spec_float.

(** The session [await auth()] resolves to. *)
Variable session : option Auth.Session.

(** [getAllTaskAssignmentsByClientId], imported from
    [@/lib/actions/task-assignment.actions]: the assignments and the number
    of pages. *)
Variable getAllTaskAssignmentsByClientId : string -> Assignments.

(** [formatId], imported from [@/lib/utils]. *)
Variable formatId : string -> string.

(** The quotation mark that [&quot;] stands for. *)
Definition quot : string := String (Ascii.ascii_of_nat 34) "".

(** The row of one assignment. *)
Definition assignment_row (taskAssignment : TaskAssignment.t) : Node Empty_set :=
  Element "TableRow" (Some (TaskAssignment.id taskAssignment)) []
    [ Element "TableCell" None [] [Text (formatId (TaskAssignment.id taskAssignment))];
      Element "TableCell" None [] [Text (TaskAssignment.statusId taskAssignment)];
      Element "TableCell" None [("className", PString "flex gap-1")]
        [ Element "Button" None
            [("asChild", PBool true); ("variant", PString "outline"); ("size", PString "sm")]
            [ Element "Link" None
                [("href", PString ("/user/dashboard/client/task-assignments/"
                                     ++ TaskAssignment.id taskAssignment))]
                [Text "Edit"] ];
          Element "DeleteDialog" None
            [("id", PString (TaskAssignment.id taskAssignment));
             ("action", PRef "deleteTaskAssignment")] [] ] ].

Definition ClientTaskAssignmentsPage (searchParams : SearchParams) : Rendering Empty_set :=
  let page := or_number (ToNumber (page searchParams)) (Number.of_Z 1) in
  let searchText := or_string (query searchParams) "" in
  let category := or_string (category searchParams) "" in
  if not_ (Auth.user_id session) then Redirected "/login"
  else
    let tasksAssignments :=
      getAllTaskAssignmentsByClientId (default "" (Auth.user_id session)) in
    Rendered
      (Element "div" None [("className", PString "space-y-2")]
         [ Element "div" None [("className", PString "flex-between")]
             [ Element "div" None [("className", PString "flex items-center gap-3")]
                 [ Element "h1" None [("className", PString "h2-bold")] [Text "Tasks Assignments"];
                   if String.eqb searchText "" then Text searchText
                   else
                     Element "div" None []
                       [ Text "Filtered by ";
                         Element "i" None [] [Text quot; Text searchText; Text quot];
                         Text " ";
                         Element "Link" None
                           [("href", PString "/user/dashboard/client/task-assignments")]
                           [ Element "Button" None
                               [("variant", PString "outline"); ("size", PString "sm")]
                               [Text "Remove Filter"] ] ] ] ];
           Element "Table" None []
             [ Element "TableHeader" None []
                 [ Element "TableRow" None []
                     [ Element "TableHead" None [] [Text "ID"];
                       Element "TableHead" None [] [Text "NAME"];
                       Element "TableHead" None [("className", PString "text-right")] [Text "PRICE"];
                       Element "TableHead" None [] [Text "CATEGORY"];
                       Element "TableHead" None [("className", PString "w-[100px]")] [Text "ACTIONS"] ] ];
               Element "TableBody" None []
                 [Array (map assignment_row (data tasksAssignments))] ];
           if 1 <? totalPages tasksAssignments then
             Element "Pagination" None
               [("page", PNumber page);
                ("totalPages", PNumber (Number.of_Z (totalPages tasksAssignments)))] []
           else False_ ]).

End ClientTaskAssignmentsPage.

(** ** The header *)
Section Header.

Import React.

(** The [Category] type of [@/types]. *)
Variable Category : Type.

(** [APP_NAME] of [@/lib/constants]. *)
Variable APP_NAME : string.

(** What [await getCategories()] resolves to. *)
Variable allCategories : list Category.

(** The session [await auth()] resolves to. *)
Variable session : option Auth.Session.

Definition Header (categories : option (list Category)) : Node (list Category) :=
  let safeCategories := default [] categories in
  let isAuthenticated := Auth.has_user session in
  Element "header" None [("className", PString "w-full bg-white dark:bg-black")]
    [ Element "div" None [("className", PString "wrapper flex-between")]
        [ Element "div" None [("className", PString "flex-start items-center")]
            [ Element "div" None [("className", PString "sm:hidden")]
                [ Element "CategoriesDrawer" None
                    [("initialCategories", PData safeCategories)] [] ];
              Element "Link" None
                [("href", PString "/"); ("className", PString "flex-start items-center ml-4")]
                [ Element "Image" None
                    [ ("priority", PBool true);
                      ("src", PString "/images/logo.svg");
                      ("width", PNumber (Number.of_Z 32));
                      ("height", PNumber (Number.of_Z 32));
                      ("alt", PString (APP_NAME ++ " logo")) ] [];
                  Element "span" None
                    [("className", PString "hidden lg:block font-bold text-4xl ml-3")]
                    [Text APP_NAME] ];
              Element "div" None [("className", PString "hidden md:block ml-6")]
                [ Element "Search" None [("initialCategories", PData allCategories)] [] ] ];
          Element "div" None [("className", PString "flex items-center gap-6")]
            [ if isAuthenticated then
                Element "Link" None
                  [ ("href", PString "/user/dashboard");
                    ("className",
                      PString "text-base font-semibold hover:text-primary transition-colors flex items-center") ]
                  [ Element "LayoutDashboard" None [("className", PString "h-6 w-6 mr-2")] [];
                    Text "Dashboard" ]
              else False_;
              Element "Menu" None [] [] ] ] ].

End Header.

(** ** Concrete sessions and assignments for the examples *)
Module SamplePage.

Definition signed_in : option Auth.Session :=
  Some {| Auth.user := Some {| Auth.id := Some "u1" |} |}.

(** A session whose user carries no id. *)
Definition nameless : option Auth.Session :=
  Some {| Auth.user := Some {| Auth.id := None |} |}.

Definition assignment (id status : string) : TaskAssignment.t :=
  {| TaskAssignment.id := id;
     TaskAssignment.taskId := "t1";
     TaskAssignment.clientId := "u1";
     TaskAssignment.contractorId := "u2";
     TaskAssignment.statusId := status;
     TaskAssignment.createdAt := 1700000000000;
     TaskAssignment.completedAt := None |}.

(** Two stand-ins for the action; they agree on the client [u1] only. *)
Definition getAll (clientId : string) : Assignments :=
  if String.eqb clientId "u1" then
    {| data := [assignment "a1" "open"; assignment "a2" "done"]; totalPages := 3 |}
  else {| data := []; totalPages := 0 |}.

Definition getAll' (clientId : string) : Assignments :=
  if String.eqb clientId "u1" then
    {| data := [assignment "a1" "open"; assignment "a2" "done"]; totalPages := 3 |}
  else {| data := [assignment "a9" "open"]; totalPages := 1 |}.

(** Stand-ins for [Number] (it knows the string "2" only) and [formatId]. *)
Definition ToNumber (value : option string) : spec_float :=
  match value with
  | Some "2" => Number.of_Z 2
  | _ => S754_nan
  end.

Definition formatId (id : string) : string := ".." ++ id.

Definition filtered : SearchParams :=
  {| page := Some "2"; query := Some "garden"; category := None |}.

Definition plain : SearchParams :=
  {| page := None; query := None; category := None |}.

End SamplePage.

(** * Properties *)

(** ** The handler on its own, for any SDK and any store primitive *)
Section Handler.

Variable constructEvent : string -> string -> option string -> Thrown + Stripe.Event.
Variable secret : option string.
Variable updatePaymentToPaid : option string -> Json -> Action unit.

Local Abbreviation handler := (POST constructEvent secret updatePaymentToPaid).

Lemma POST_no_signature req now s :
  not_ (headers req !! "stripe-signature") = true →
  handler req now s =
    ({| status := 400; body := JObject [("error", JString "No signature header")] |}, s).
Proof.
  intros H. unfold POST, try_catch, POST_try.
  by rewrite H.
Qed.

Lemma POST_rejected req now s e :
  fails_verification constructEvent secret req e →
  handler req now s = (POST_catch e, s).
Proof.
  intros [Hsig Hev]. unfold POST, try_catch, POST_try, bind, lift.
  by rewrite Hsig, Hev.
Qed.

Lemma POST_other_event req now s event :
  verifies constructEvent secret req event →
  Stripe.type event ≠ "charge.succeeded" →
  handler req now s =
    ({| status := 200;
        body := JObject [("message", JString "event is not charge.succeeded")] |}, s).
Proof.
  intros [Hsig Hev] Hty. unfold POST, try_catch, POST_try, bind, lift.
  rewrite Hsig, Hev.
  by destruct (String.eqb_spec (Stripe.type event) "charge.succeeded").
Qed.

Lemma POST_no_orderId req now s event :
  verifies constructEvent secret req event →
  Stripe.type event = "charge.succeeded" →
  not_ (Stripe.metadata_get (Stripe.data_object event) "orderId") = true →
  handler req now s =
    ({| status := 400;
        body := JObject [("error", JString "No orderId found in payment metadata")] |}, s).
Proof.
  intros [Hsig Hev] Hty Hord.
  unfold POST, try_catch, POST_try, bind, lift.
  by rewrite Hsig, Hev, Hty, Hord.
Qed.

Lemma POST_update req now s event :
  verifies constructEvent secret req event →
  Stripe.type event = "charge.succeeded" →
  not_ (Stripe.metadata_get (Stripe.data_object event) "orderId") = false →
  handler req now s =
    match updatePaymentToPaid
            (Stripe.metadata_get (Stripe.data_object event) "paymentId")
            (payment_result (Stripe.data_object event) now) s with
    | (inr _, s') =>
        ({| status := 200;
            body := JObject [("message", JString "updateOrderToPaid was successful")] |},
         s')
    | (inl e, s') => (POST_catch e, s')
    end.
Proof.
  intros [Hsig Hev] Hty Hord.
  unfold POST, try_catch, POST_try, bind, lift.
  rewrite Hsig, Hev, Hty, Hord. simpl.
  by destruct (updatePaymentToPaid _ _ s) as [[e|[]] s'].
Qed.

End Handler.

(** ** The amount conversion on a few charges *)

Example of_Z_100 : Number.of_Z 100 = S754_finite false 7036874417766400 (-46).
Proof. reflexivity. Qed.

(** 123.45 is not a binary64 value; the quotient is the nearest one. *)
Example div_12345_100 :
  Number.div (Number.of_Z 12345) (Number.of_Z 100)
    = S754_finite false 8687021468732621 (-46).
Proof. vm_compute. reflexivity. Qed.

Example major_units_samples :
  map (λ a, major_units (Sample.charge a None)) [0; 49; 50; 99; 100; 12349; 12350; 99999999]
    = ["0"; "0"; "1"; "1"; "1"; "123"; "124"; "1000000"].
Proof. vm_compute. reflexivity. Qed.

(** ** The store primitive *)

Lemma markPaymentPaid_pending now pid p result (s : Store) :
  s !! pid = Some p →
  isPaid p = false →
  markPaymentPaid now (Some pid) result s = (inr tt, <[pid := paid p now result]> s).
Proof. intros Hp Hpaid. unfold markPaymentPaid. by rewrite Hp, Hpaid. Qed.

Lemma markPaymentPaid_settled now pid p result (s : Store) :
  s !! pid = Some p →
  isPaid p = true →
  markPaymentPaid now (Some pid) result s = (inr tt, s).
Proof. intros Hp Hpaid. unfold markPaymentPaid. by rewrite Hp, Hpaid. Qed.

Lemma markPaymentPaid_unknown now paymentId result (s : Store) :
  paymentId ≫= (s !!.) = None →
  markPaymentPaid now paymentId result s = (inl (Error "UnknownPayment"), s).
Proof.
  intros Hnone. unfold markPaymentPaid.
  destruct paymentId as [pid|]; [|done].
  simpl in Hnone. by rewrite Hnone.
Qed.

(** One call either leaves the table as it is or settles one pending row. *)
Lemma markPaymentPaid_store now paymentId result (s : Store) :
  (markPaymentPaid now paymentId result s).2 = s ∨
  ∃ pid p, s !! pid = Some p ∧ isPaid p = false ∧
           (markPaymentPaid now paymentId result s).2 = <[pid := paid p now result]> s.
Proof.
  unfold markPaymentPaid.
  destruct paymentId as [pid|]; [|by left].
  destruct (s !! pid) as [p|] eqn:Hp; [|by left].
  destruct (isPaid p) eqn:Hpaid; [by left|].
  right. by exists pid, p.
Qed.

(** The handler touches the table only through the store primitive. *)
Lemma POST_store constructEvent secret updatePaymentToPaid req now (s : Store) :
  (POST constructEvent secret updatePaymentToPaid req now s).2 = s ∨
  ∃ paymentId result,
    (POST constructEvent secret updatePaymentToPaid req now s).2
      = (updatePaymentToPaid paymentId result s).2.
Proof.
  unfold POST, try_catch, POST_try, bind, lift.
  destruct (not_ (headers req !! "stripe-signature")); [by left|].
  destruct (constructEvent _ _ _) as [e|event]; [by left|].
  destruct (String.eqb _ _); [|by left].
  destruct (not_ (Stripe.metadata_get _ "orderId")); [by left|].
  right.
  exists (Stripe.metadata_get (Stripe.data_object event) "paymentId"),
         (payment_result (Stripe.data_object event) now).
  by destruct (updatePaymentToPaid _ _ s) as [[e|[]] s'].
Qed.

Lemma deliver_store constructEvent secret (s : Store) d :
  deliver constructEvent secret s d = s ∨
  ∃ pid p result, s !! pid = Some p ∧ isPaid p = false ∧
    deliver constructEvent secret s d = <[pid := paid p d.2 result]> s.
Proof.
  unfold deliver, endpoint.
  destruct (POST_store constructEvent secret (markPaymentPaid d.2) d.1 d.2 s)
    as [->|(paymentId & result & ->)]; [by left|].
  destruct (markPaymentPaid_store d.2 paymentId result s)
    as [->|(pid & p & Hp & Hpaid & ->)]; [by left|].
  right. by exists pid, p, result.
Qed.

Lemma deliver_inv constructEvent secret (s : Store) d :
  map_Forall (λ _, payment_inv) s →
  map_Forall (λ _, payment_inv) (deliver constructEvent secret s d).
Proof.
  intros Hinv.
  destruct (deliver_store constructEvent secret s d)
    as [->|(pid & p & result & Hp & Hpaid & ->)]; [done|].
  apply map_Forall_insert_2; [|done].
  unfold payment_inv. simpl. split; eauto.
Qed.

Lemma deliver_settled constructEvent secret (s : Store) d pid p :
  s !! pid = Some p →
  isPaid p = true →
  deliver constructEvent secret s d !! pid = Some p.
Proof.
  intros Hp Hpaid.
  destruct (deliver_store constructEvent secret s d)
    as [->|(pid' & p' & result & Hp' & Hpaid' & ->)]; [done|].
  rewrite lookup_insert_ne; [done|].
  intros ->. congruence.
Qed.

Lemma run_inv constructEvent secret ds (s : Store) :
  map_Forall (λ _, payment_inv) s →
  map_Forall (λ _, payment_inv) (run constructEvent secret ds s).
Proof.
  revert s. induction ds as [|d ds IH]; intros s Hinv; [done|].
  simpl. apply IH. by apply deliver_inv.
Qed.

Lemma run_settled constructEvent secret ds (s : Store) pid p :
  s !! pid = Some p →
  isPaid p = true →
  run constructEvent secret ds s !! pid = Some p.
Proof.
  revert s. induction ds as [|d ds IH]; intros s Hp Hpaid; [done|].
  simpl. apply IH; [|done]. by apply deliver_settled.
Qed.

Lemma run_app constructEvent secret ds1 ds2 (s : Store) :
  run constructEvent secret (ds1 ++ ds2) s
    = run constructEvent secret ds2 (run constructEvent secret ds1 s).
Proof. unfold run. apply fold_left_app. Qed.

(** ** The amount conversion for every amount

    The quotient [amount / 100] is computed in binary64.  The lemmas below
    follow the library's division and rounding on a dividend of at most 53
    bits and show that the quotient is near enough to the exact one for
    [toFixed] to round as exact arithmetic would. *)

Lemma digits2_pos_bounds p :
  2 ^ (Z.pos (digits2_pos p) - 1) ≤ Z.pos p < 2 ^ Z.pos (digits2_pos p).
Proof.
  induction p as [p IH|p IH|]; simpl digits2_pos.
  - rewrite Pos2Z.inj_succ, Z.pow_succ_r by lia.
    replace (Z.succ (Z.pos (digits2_pos p)) - 1) with (Z.succ (Z.pos (digits2_pos p) - 1)) by lia.
    rewrite Z.pow_succ_r by lia. lia.
  - rewrite Pos2Z.inj_succ, Z.pow_succ_r by lia.
    replace (Z.succ (Z.pos (digits2_pos p)) - 1) with (Z.succ (Z.pos (digits2_pos p) - 1)) by lia.
    rewrite Z.pow_succ_r by lia. lia.
  - simpl. lia.
Qed.

Lemma digits2_pos_unique p k :
  2 ^ (k - 1) ≤ Z.pos p < 2 ^ k → Z.pos (digits2_pos p) = k.
Proof.
  intros [Hlo Hhi]. pose proof (digits2_pos_bounds p) as [Hlo' Hhi'].
  set (d := Z.pos (digits2_pos p)) in *.
  assert (0 < d) by (unfold d; lia).
  destruct (Z.lt_trichotomy d k) as [Hlt|[Heq|Hgt]]; [|done|].
  - assert (2 ^ d ≤ 2 ^ (k - 1)) by (apply Z.pow_le_mono_r; lia). lia.
  - assert (0 ≤ k).
    { destruct (Z.le_gt_cases 0 k); [done|]. rewrite (Z.pow_neg_r 2 k) in Hhi by lia. lia. }
    assert (2 ^ k ≤ 2 ^ (d - 1)) by (apply Z.pow_le_mono_r; lia). lia.
Qed.

Lemma shr_fexp_53 m e l :
  2 ^ 52 ≤ Z.pos m < 2 ^ 53 → -1074 ≤ e →
  shr_fexp Number.prec Number.emax (Z.pos m) e l = (shr_record_of_loc (Z.pos m) l, e).
Proof.
  intros Hm He. unfold shr_fexp. simpl Zdigits2.
  rewrite (digits2_pos_unique m 53) by (simpl; lia).
  unfold fexp, emin, Number.prec, Number.emax.
  replace (Z.max (53 + e - 53) (3 - 1024 - 53) - e) with 0 by lia.
  reflexivity.
Qed.

Lemma shr_fexp_54 m e l :
  2 ^ 53 ≤ Z.pos m < 2 ^ 54 → -1075 ≤ e →
  shr_fexp Number.prec Number.emax (Z.pos m) e l
    = (shr_1 (shr_record_of_loc (Z.pos m) l), e + 1).
Proof.
  intros Hm He. unfold shr_fexp. simpl Zdigits2.
  rewrite (digits2_pos_unique m 54) by (simpl; lia).
  unfold fexp, emin, Number.prec, Number.emax.
  replace (Z.max (54 + e - 53) (3 - 1024 - 53) - e) with 1 by lia.
  reflexivity.
Qed.

(** A mantissa of 53 bits with nothing to round is kept. *)
Lemma binary_round_aux_exact s m e :
  2 ^ 52 ≤ Z.pos m < 2 ^ 53 → -1074 ≤ e ≤ 971 →
  binary_round_aux Number.prec Number.emax s (Z.pos m) e loc_Exact = S754_finite s m e.
Proof.
  intros Hm He. unfold binary_round_aux.
  rewrite shr_fexp_53 by lia. simpl.
  rewrite shr_fexp_53 by lia. simpl.
  unfold Number.emax, Number.prec.
  destruct (Z.leb_spec e (1024 - 53)); [done|lia].
Qed.

Lemma new_location_cases m2 r :
  Z.even m2 = true → 0 ≤ r < m2 →
  (r = 0 ∧ new_location m2 r = loc_Exact) ∨
  (0 < r ∧ 2 * r < m2 ∧ new_location m2 r = loc_Inexact Lt) ∨
  (2 * r = m2 ∧ new_location m2 r = loc_Inexact Eq) ∨
  (m2 < 2 * r ∧ new_location m2 r = loc_Inexact Gt).
Proof.
  intros Heven Hr. unfold new_location, new_location_even. rewrite Heven.
  destruct (Z.eqb_spec r 0) as [->|Hne]; [by left|].
  destruct (Z.compare_spec (2 * r) m2).
  - right; right; left. done.
  - right; left. repeat split; [lia|done].
  - right; right; right. done.
Qed.

Lemma loc_of_shr_record_of_loc m l :
  loc_of_shr_record (shr_record_of_loc m l) = l.
Proof. by destruct l as [|[]]. Qed.

(** Rounding a quotient of 53 or 54 bits: the mantissa kept is within half
    a unit in the last place of the exact quotient [(q * m2 + r) / m2]. *)
Lemma binary_round_aux_nearest q e m2 r :
  2 ^ 52 ≤ Z.pos q < 2 ^ 54 - 2 → -1074 ≤ e ≤ 900 →
  Z.even m2 = true → 0 ≤ r < m2 →
  ∃ m k,
    binary_round_aux Number.prec Number.emax false (Z.pos q) e (new_location m2 r)
      = S754_finite false m (e + k) ∧
    0 ≤ k ≤ 1 ∧
    2 * Z.abs (Z.pos m * 2 ^ k * m2 - (Z.pos q * m2 + r)) ≤ 2 ^ k * m2.
Proof.
  intros Hq He Heven Hr.
  destruct (Z.lt_ge_cases (Z.pos q) (2 ^ 53)) as [Hq53|Hq54].
  - (* 53 bits: no shift before rounding *)
    unfold binary_round_aux. rewrite shr_fexp_53 by lia.
    rewrite loc_of_shr_record_of_loc.
    assert (Hm : ∃ m', round_nearest_even
                          (shr_m (shr_record_of_loc (Z.pos q) (new_location m2 r)))
                          (new_location m2 r) = Z.pos m' ∧
                       Z.pos q ≤ Z.pos m' ≤ Z.pos q + 1 ∧
                       2 * Z.abs (Z.pos m' * m2 - (Z.pos q * m2 + r)) ≤ m2).
    { destruct (new_location_cases m2 r Heven Hr)
        as [[-> ->]|[(? & ? & ->)|[[? ->]|[? ->]]]];
        cbn [round_nearest_even shr_m shr_record_of_loc].
      - exists q. lia.
      - exists q. lia.
      - destruct (Z.even (Z.pos q)).
        + exists q. lia.
        + exists (q + 1)%positive. lia.
      - exists (q + 1)%positive. lia. }
    destruct Hm as (m' & -> & Hm' & Hnear).
    destruct (Z.lt_ge_cases (Z.pos m') (2 ^ 53)) as [Hm53|Hm54].
    + rewrite shr_fexp_53 by lia. simpl.
      unfold Number.emax, Number.prec.
      destruct (Z.leb_spec e (1024 - 53)); [|lia].
      exists m', 0. rewrite Z.add_0_r. split; [done|]. split; [lia|].
      rewrite Z.pow_0_r. lia.
    + assert (Z.pos m' = 2 ^ 53) as Hm'eq by lia.
      rewrite shr_fexp_54 by lia.
      assert (m' = 9007199254740992%positive) as -> by (simpl in Hm'eq; lia).
      simpl.
      unfold Number.emax, Number.prec.
      destruct (Z.leb_spec (e + 1) (1024 - 53)); [|lia].
      exists 4503599627370496%positive, 1. split; [done|]. split; [lia|].
      rewrite Z.pow_1_r. lia.
  - (* 54 bits: one shift, the bit shifted out decides *)
    unfold binary_round_aux. rewrite shr_fexp_54 by lia.
    assert (Hm : ∃ m',
      round_nearest_even
        (shr_m (shr_1 (shr_record_of_loc (Z.pos q) (new_location m2 r))))
        (loc_of_shr_record (shr_1 (shr_record_of_loc (Z.pos q) (new_location m2 r))))
        = Z.pos m' ∧
      2 ^ 52 ≤ Z.pos m' < 2 ^ 53 ∧
      2 * Z.abs (Z.pos m' * 2 * m2 - (Z.pos q * m2 + r)) ≤ 2 * m2).
    { destruct (new_location_cases m2 r Heven Hr)
        as [[-> ->]|[(? & ? & ->)|[[? ->]|[? ->]]]];
        destruct q as [q|q|];
        cbn [round_nearest_even shr_m shr_record_of_loc shr_1 loc_of_shr_record orb];
        try lia.
      all: try (exists q; lia).
      all: try (exists (q + 1)%positive; lia).
      all: destruct (Z.even (Z.pos q)); [exists q; lia | exists (q + 1)%positive; lia]. }
    destruct Hm as (m' & -> & Hm' & Hnear).
    rewrite shr_fexp_53 by lia. simpl.
    unfold Number.emax, Number.prec.
    destruct (Z.leb_spec (e + 1) (1024 - 53)); [|lia].
    exists m', 1. split; [done|]. split; [lia|].
    rewrite Z.pow_1_r. lia.
Qed.

Lemma iter_xO_pow p k : Z.pos (Pos.iter xO p k) = Z.pos p * 2 ^ Z.pos k.
Proof.
  rewrite (Pos.iter_swap_gen _ _ Z.pos xO (Z.mul 2)) by done.
  change (Pos.iter (Z.mul 2) (Z.pos p) k) with (Z.shiftl (Z.pos p) (Z.pos k)).
  apply Z.shiftl_mul_pow2. lia.
Qed.

(** A positive integer below 2^53 is a binary64 value: its mantissa is the
    integer shifted up to 53 bits. *)
Lemma of_Z_normal a :
  0 < a < 2 ^ 53 →
  ∃ m e, Number.of_Z a = S754_finite false m e ∧
         2 ^ 52 ≤ Z.pos m < 2 ^ 53 ∧ -52 ≤ e ≤ 0 ∧
         Z.pos m = a * 2 ^ (- e).
Proof.
  intros Ha. destruct a as [|p|p]; [lia| |lia].
  unfold Number.of_Z, binary_normalize, binary_round, shl_align.
  pose proof (digits2_pos_bounds p) as Hd.
  set (d := Z.pos (digits2_pos p)) in *.
  assert (1 ≤ d ≤ 53) as Hd53.
  { split; [unfold d; lia|].
    destruct (Z.le_gt_cases d 53); [done|].
    assert (2 ^ 53 ≤ 2 ^ (d - 1)) by (apply Z.pow_le_mono_r; lia). lia. }
  unfold fexp, emin, Number.prec, Number.emax.
  replace (Z.max (d + 0 - 53) (3 - 1024 - 53) - 0) with (d - 53) by lia.
  replace (Z.max (d + 0 - 53) (3 - 1024 - 53)) with (d - 53) by lia.
  destruct (d - 53) as [|k|k] eqn:Hk; [| lia |].
  - assert (d = 53) as Hd' by lia. rewrite Hd' in Hd.
    exists p, 0. split; [|simpl in *; lia].
    apply (binary_round_aux_exact false p 0); simpl in *; lia.
  - assert (Hm : 2 ^ 52 ≤ Z.pos (Pos.iter xO p k) < 2 ^ 53).
    { rewrite iter_xO_pow.
      replace 52 with ((d - 1) + Z.pos k) by lia.
      replace 53 with (d + Z.pos k) by lia.
      rewrite !Z.pow_add_r by lia.
      assert (0 < 2 ^ Z.pos k) by (apply Z.pow_pos_nonneg; lia). nia. }
    exists (Pos.iter xO p k), (Z.neg k). split; [|split; [done|split; [lia|]]].
    + apply (binary_round_aux_exact false _ (Z.neg k)); [done|lia].
    + rewrite iter_xO_pow. done.
Qed.

(** The quotient of such a value by 100: a finite number within half a unit
    in the last place of the exact quotient, the last place being at most
    2^-6. *)
Lemma div_100_nearest a :
  0 < a < 2 ^ 53 →
  ∃ m E, Number.div (Number.of_Z a) (Number.of_Z 100) = S754_finite false m (- E) ∧
         6 ≤ E ∧
         Z.abs (100 * Z.pos m - a * 2 ^ E) ≤ 50.
Proof.
  intros Ha.
  destruct (of_Z_normal a Ha) as (m1 & e1 & -> & Hm1 & He1 & Hval).
  rewrite of_Z_100. unfold Number.div, SFdiv, SFdiv_core_binary.
  cbn [Zdigits2].
  rewrite (digits2_pos_unique m1 53) by (simpl; lia).
  change (Z.pos (digits2_pos 7036874417766400)) with 53.
  unfold fexp, emin, Number.prec, Number.emax.
  replace (Z.min (Z.max (53 + e1 - (53 + -46) - 53) (3 - 1024 - 53)) (e1 - -46))
    with (e1 - 7) by lia.
  replace (e1 - -46 - (e1 - 7)) with 53 by lia.
  rewrite Z.shiftl_mul_pow2 by lia.
  set (m2 := 7036874417766400).
  pose proof (Z_div_mod (Z.pos m1 * 2 ^ 53) m2 eq_refl) as Hdiv.
  destruct (Z.div_eucl (Z.pos m1 * 2 ^ 53) m2) as [q r].
  destruct Hdiv as [Hqr Hr].
  assert (2 ^ 52 ≤ q < 2 ^ 54 - 2) as Hq by (unfold m2 in *; lia).
  destruct q as [|q|q]; [lia| |lia].
  destruct (binary_round_aux_nearest q (e1 - 7) m2 r Hq ltac:(lia) eq_refl Hr)
    as (m & k & Hround & Hk & Hnear).
  change (xorb false false) with false.
  change (binary_round_aux 53 1024) with (binary_round_aux Number.prec Number.emax).
  rewrite Hround.
  exists m, (7 - e1 - k). split; [f_equal; lia|]. split; [lia|].
  assert (Hk' : k = 0 ∨ k = 1) by lia.
  rewrite Hval in Hqr.
  replace (2 ^ (7 - e1 - k)) with (2 ^ (- e1) * 2 ^ (7 - k))
    by (rewrite <- Z.pow_add_r by lia; f_equal; lia).
  set (A := a * 2 ^ (- e1)) in *.
  replace (a * (2 ^ (- e1) * 2 ^ (7 - k))) with (A * 2 ^ (7 - k)) by (unfold A; ring).
  unfold m2 in *.
  destruct Hk' as [-> | ->]; simpl (2 ^ _) in *; lia.
Qed.

Lemma nearest_integer_half_up m E a :
  6 ≤ E → 0 ≤ a →
  Z.abs (100 * Z.pos m - a * 2 ^ E) ≤ 50 →
  Number.nearest_integer m (- E) = (a + 50) / 100.
Proof.
  intros HE Ha Hnear. unfold Number.nearest_integer.
  destruct (Z.leb_spec 0 (- E)); [lia|].
  rewrite Z.shiftr_div_pow2, Z.shiftl_mul_pow2 by lia.
  replace (- - E) with E by lia. replace (- - E - 1) with (E - 1) by lia.
  rewrite Z.mul_1_l.
  assert (32 ≤ 2 ^ (E - 1)) as HP.
  { change 32 with (2 ^ 5). apply Z.pow_le_mono_r; lia. }
  replace (2 ^ E) with (2 * 2 ^ (E - 1)) in *
    by (rewrite <- Z.pow_succ_r by lia; f_equal; lia).
  set (P := 2 ^ (E - 1)) in *.
  pose proof (Z.div_mod (a + 50) 100 ltac:(lia)) as Hdm.
  pose proof (Z.mod_pos_bound (a + 50) 100 ltac:(lia)) as Hmod.
  set (n := (a + 50) / 100) in *.
  symmetry. apply (Z.div_unique_pos _ _ n (Z.pos m + P - 2 * P * n)); nia.
Qed.

(** [(amount / 100).toFixed()] for an amount of at most 53 bits: the
    numeral of the amount in whole units, halves rounded upwards. *)
Lemma toFixed_div_100 a :
  0 ≤ a < 2 ^ 53 →
  Number.toFixed (Number.div (Number.of_Z a) (Number.of_Z 100))
    = Number.digits ((a + 50) / 100).
Proof.
  intros Ha.
  destruct (Z.eq_dec a 0) as [->|Hne]; [reflexivity|].
  destruct (div_100_nearest a ltac:(lia)) as (m & E & -> & HE & Hnear).
  unfold Number.toFixed. cbn [String.append].
  by rewrite (nearest_integer_half_up m E a) by lia.
Qed.

(** ** The claims *)

(** C1: the claim is that the major-unit amount recorded in [pricePaid] and
    [amount] is the minor-unit amount divided by 100 with two decimals,
    12345 giving "123.45".  The handler calls [toFixed] without a digits
    argument: for a charge of 12345 minor units both fields of the object it
    hands to the store are "123", the 45 hundredths are lost. *)
Theorem charge_12345_recorded_as_123 :
  major_units (Sample.charge 12345 Sample.both_ids) = "123" ∧
  payment_result (Sample.charge 12345 Sample.both_ids) 1700000000000 =
    JObject
      [ ("id", JString "ch_1");
        ("status", JString "COMPLETED");
        ("email_address", JString "payer@example.com");
        ("pricePaid", JString "123");
        ("amount", JString "123");
        ("created_at", JString "2023-11-14T22:13:20.000Z") ].
Proof. split; vm_compute; reflexivity. Qed.

(** C2: a verified [charge.succeeded] event whose metadata passes the
    handler's correlation check and whose [paymentId] names a pending
    Payment is answered by 200 with a message body, and afterwards that
    Payment has [isPaid = true], [paidAt] set to the instant of the update
    and a [paymentResult] holding the charge id, the status "COMPLETED" and
    the payer's email.  The amount it holds, in [pricePaid] and in [amount],
    is not the major-unit amount: it is the amount divided by 100 and rounded
    to a whole number, halves upwards, so that 12345 minor units are
    recorded as "123" (the defect of C1). *)
Theorem charge_succeeded_settles_payment
    constructEvent secret req now (s : Store) event pid p :
  verifies constructEvent secret req event →
  Stripe.type event = "charge.succeeded" →
  not_ (Stripe.metadata_get (Stripe.data_object event) "orderId") = false →
  Stripe.metadata_get (Stripe.data_object event) "paymentId" = Some pid →
  0 ≤ Stripe.amount (Stripe.data_object event) < 2 ^ 53 →
  s !! pid = Some p →
  isPaid p = false →
  ∃ s' p',
    endpoint constructEvent secret req now s =
      ({| status := 200;
          body := JObject [("message", JString "updateOrderToPaid was successful")] |},
       s') ∧
    s' !! pid = Some p' ∧
    isPaid p' = true ∧
    paidAt p' = Some now ∧
    paymentResult p' =
      JObject
        [ ("id", JString (Stripe.id (Stripe.data_object event)));
          ("status", JString "COMPLETED");
          ("email_address",
            JNullable (Stripe.billing_details_email (Stripe.data_object event)));
          ("pricePaid",
            JString (Number.digits ((Stripe.amount (Stripe.data_object event) + 50) / 100)));
          ("amount",
            JString (Number.digits ((Stripe.amount (Stripe.data_object event) + 50) / 100)));
          ("created_at", JString (Date.toISOString now)) ].
Proof.
  intros Hver Hty Hord Hpid Hamount Hp Hpaid.
  exists (<[pid := paid p now (payment_result (Stripe.data_object event) now)]> s),
         (paid p now (payment_result (Stripe.data_object event) now)).
  split; [|rewrite lookup_insert_eq; repeat split; cbn [paymentResult paid];
           unfold payment_result, major_units; by rewrite toFixed_div_100].
  unfold endpoint.
  rewrite (POST_update _ _ _ _ _ _ _ Hver Hty Hord), Hpid.
  by rewrite (markPaymentPaid_pending _ _ _ _ _ Hp Hpaid).
Qed.

Lemma charge_succeeded_settles_payment_witness :
  ∃ s' p',
    endpoint (Sample.constructEvent Sample.signed) Sample.secret
             (Sample.request "evt_paid" "t=1,v1=aa") 1700000000000 Sample.store =
      ({| status := 200;
          body := JObject [("message", JString "updateOrderToPaid was successful")] |},
       s') ∧
    s' !! "p1" = Some p' ∧
    isPaid p' = true ∧
    paidAt p' = Some 1700000000000 ∧
    paymentResult p' =
      JObject
        [ ("id", JString "ch_1");
          ("status", JString "COMPLETED");
          ("email_address", JString "payer@example.com");
          ("pricePaid", JString "123");
          ("amount", JString "123");
          ("created_at", JString "2023-11-14T22:13:20.000Z") ].
Proof.
  apply (charge_succeeded_settles_payment
           (Sample.constructEvent Sample.signed) Sample.secret
           (Sample.request "evt_paid" "t=1,v1=aa") 1700000000000 Sample.store
           (Sample.succeeded 12345 Sample.both_ids) "p1" Sample.pending).
  - split; reflexivity.
  - reflexivity.
  - reflexivity.
  - reflexivity.
  - simpl. lia.
  - reflexivity.
  - reflexivity.
Defined.

(** C3: processing is idempotent per Payment.  Take a [charge.succeeded]
    event whose correlation resolves to a Payment, and two deliveries of it:
    the requests may differ (the provider signs a redelivery anew) and so
    may what the SDK accepts at the two instants, as long as each delivery
    is accepted when it is handled and yields that event.  The first
    handling answers 200 and leaves the Payment paid; the second, at any
    instant, answers the same 200 and leaves every row of the table as it
    was, [paidAt] included. *)
Theorem redelivery_is_noop
    constructEvent constructEvent' secret req req' now now' (s : Store) event pid p :
  verifies constructEvent secret req event →
  verifies constructEvent' secret req' event →
  Stripe.type event = "charge.succeeded" →
  not_ (Stripe.metadata_get (Stripe.data_object event) "orderId") = false →
  Stripe.metadata_get (Stripe.data_object event) "paymentId" = Some pid →
  s !! pid = Some p →
  ∃ s1 p1,
    endpoint constructEvent secret req now s =
      ({| status := 200;
          body := JObject [("message", JString "updateOrderToPaid was successful")] |},
       s1) ∧
    s1 !! pid = Some p1 ∧ isPaid p1 = true ∧
    endpoint constructEvent' secret req' now' s1 =
      ({| status := 200;
          body := JObject [("message", JString "updateOrderToPaid was successful")] |},
       s1).
Proof.
  intros Hver Hver' Hty Hord Hpid Hp.
  unfold endpoint.
  rewrite (POST_update _ _ _ _ _ _ _ Hver Hty Hord), Hpid.
  destruct (isPaid p) eqn:Hpaid.
  - exists s, p.
    rewrite (POST_update _ _ _ _ _ _ _ Hver' Hty Hord), Hpid.
    by rewrite !(markPaymentPaid_settled _ _ _ _ _ Hp Hpaid).
  - set (p1 := paid p now (payment_result (Stripe.data_object event) now)).
    exists (<[pid := p1]> s), p1.
    rewrite (markPaymentPaid_pending _ _ _ _ _ Hp Hpaid).
    rewrite (POST_update _ _ _ _ _ _ _ Hver' Hty Hord), Hpid.
    rewrite (markPaymentPaid_settled _ pid p1); [|by rewrite lookup_insert_eq|done].
    by rewrite lookup_insert_eq.
Qed.

Lemma redelivery_is_noop_witness :
  ∃ s1 p1,
    endpoint (Sample.constructEvent Sample.signed) Sample.secret
             (Sample.request "evt_paid" "t=1,v1=aa") 1700000000000 Sample.store =
      ({| status := 200;
          body := JObject [("message", JString "updateOrderToPaid was successful")] |},
       s1) ∧
    s1 !! "p1" = Some p1 ∧ isPaid p1 = true ∧
    endpoint (Sample.constructEvent SampleRedelivery.signed) Sample.secret
             (Sample.request "evt_paid" "t=601,v1=a9") 1700000600000 s1 =
      ({| status := 200;
          body := JObject [("message", JString "updateOrderToPaid was successful")] |},
       s1).
Proof.
  apply (redelivery_is_noop
           (Sample.constructEvent Sample.signed)
           (Sample.constructEvent SampleRedelivery.signed) Sample.secret
           (Sample.request "evt_paid" "t=1,v1=aa")
           (Sample.request "evt_paid" "t=601,v1=a9")
           1700000000000 1700000600000
           Sample.store (Sample.succeeded 12345 Sample.both_ids) "p1" Sample.pending).
  - split; reflexivity.
  - split; reflexivity.
  - reflexivity.
  - reflexivity.
  - reflexivity.
  - reflexivity.
Defined.

(** C4, as stated, fails: the claim is that a [charge.succeeded] event gets
    the 400 missing-correlation response if and only if [metadata.orderId]
    is absent.  An [orderId] that is present but the empty string is falsy,
    and the event is turned away with that response as well. *)
Lemma empty_orderId_is_turned_away :
  let event := Sample.succeeded 12345 (Some {[ "orderId" := ""; "paymentId" := "p1" ]}) in
  let response :=
    (endpoint (Sample.constructEvent Sample.signed) Sample.secret
              (Sample.request "evt_empty_order" "t=1,v1=dd") 1700000000000
              Sample.store).1 in
  verifies (Sample.constructEvent Sample.signed) Sample.secret
           (Sample.request "evt_empty_order" "t=1,v1=dd") event ∧
  ¬ (response =
       {| status := 400;
          body := JObject [("error", JString "No orderId found in payment metadata")] |}
     ↔ Stripe.metadata_get (Stripe.data_object event) "orderId" = None).
Proof.
  split; [split; reflexivity|].
  intros [Hresp _]. by specialize (Hresp eq_refl).
Qed.

(** C4, amended: a [charge.succeeded] event gets the 400 missing-correlation
    response if and only if [metadata.orderId] is falsy (absent or empty).
    Otherwise the store primitive is called with [metadata.paymentId] as the
    identifier and the response follows from its outcome; when the metadata
    has an [orderId] but no [paymentId], the check passes and the call is
    made with an undefined identifier. *)
Theorem correlation_check_reads_orderId_update_uses_paymentId
    constructEvent secret updatePaymentToPaid req now (s : Store) event :
  verifies constructEvent secret req event →
  Stripe.type event = "charge.succeeded" →
  ((POST constructEvent secret updatePaymentToPaid req now s).1 =
     {| status := 400;
        body := JObject [("error", JString "No orderId found in payment metadata")] |}
   ↔ not_ (Stripe.metadata_get (Stripe.data_object event) "orderId") = true) ∧
  (not_ (Stripe.metadata_get (Stripe.data_object event) "orderId") = false →
   POST constructEvent secret updatePaymentToPaid req now s =
     match updatePaymentToPaid
             (Stripe.metadata_get (Stripe.data_object event) "paymentId")
             (payment_result (Stripe.data_object event) now) s with
     | (inr _, s') =>
         ({| status := 200;
             body := JObject [("message", JString "updateOrderToPaid was successful")] |},
          s')
     | (inl e, s') => (POST_catch e, s')
     end) ∧
  (not_ (Stripe.metadata_get (Stripe.data_object event) "orderId") = false →
   Stripe.metadata_get (Stripe.data_object event) "paymentId" = None →
   POST constructEvent secret updatePaymentToPaid req now s =
     match updatePaymentToPaid None (payment_result (Stripe.data_object event) now) s with
     | (inr _, s') =>
         ({| status := 200;
             body := JObject [("message", JString "updateOrderToPaid was successful")] |},
          s')
     | (inl e, s') => (POST_catch e, s')
     end).
Proof.
  intros Hver Hty. split; [|split].
  - destruct (not_ (Stripe.metadata_get (Stripe.data_object event) "orderId")) eqn:Hord.
    + by rewrite (POST_no_orderId _ _ _ _ _ _ _ Hver Hty Hord).
    + rewrite (POST_update _ _ _ _ _ _ _ Hver Hty Hord).
      split; [|done].
      by destruct (updatePaymentToPaid _ _ s) as [[e|[]] s'].
  - intros Hord. apply (POST_update _ _ _ _ _ _ _ Hver Hty Hord).
  - intros Hord Hpid. rewrite <- Hpid. apply (POST_update _ _ _ _ _ _ _ Hver Hty Hord).
Qed.

Lemma correlation_check_reads_orderId_update_uses_paymentId_witness :
  POST (Sample.constructEvent Sample.signed) Sample.secret (markPaymentPaid 1700000000000)
       (Sample.request "evt_order_only" "t=1,v1=ee") 1700000000000 Sample.store =
    match markPaymentPaid 1700000000000 None
            (payment_result (Sample.charge 12345 (Some {[ "orderId" := "o1" ]}))
                            1700000000000)
            Sample.store with
    | (inr _, s') =>
        ({| status := 200;
            body := JObject [("message", JString "updateOrderToPaid was successful")] |},
         s')
    | (inl e, s') => (POST_catch e, s')
    end.
Proof.
  apply (correlation_check_reads_orderId_update_uses_paymentId
           (Sample.constructEvent Sample.signed) Sample.secret
           (markPaymentPaid 1700000000000)
           (Sample.request "evt_order_only" "t=1,v1=ee") 1700000000000 Sample.store
           (Sample.succeeded 12345 (Some {[ "orderId" := "o1" ]}))).
  - split; reflexivity.
  - reflexivity.
  - reflexivity.
  - reflexivity.
Defined.

(** C5, as stated, fails: the claim is that a request whose signature fails
    verification gets a 400-equivalent response.  The SDK's exception
    reaches the handler's [catch], which answers 500. *)
Lemma forged_signature_is_not_400 :
  let req := Sample.request "evt_paid" "t=1,v1=forged" in
  fails_verification (Sample.constructEvent Sample.signed) Sample.secret req
    (Error "No signatures found matching the expected signature for payload") ∧
  ¬ status (endpoint (Sample.constructEvent Sample.signed) Sample.secret req
                     1700000000000 Sample.store).1 = 400.
Proof. split; [split; reflexivity|]. vm_compute. discriminate. Qed.

(** C5, amended: a request without a signature header (or with an empty one)
    gets 400 [No signature header] whatever the SDK would make of the body,
    and the table is untouched; a request whose signature the SDK rejects
    gets the 500 response of the [catch] block carrying the SDK's message,
    the body is not looked at further and the table is untouched. *)
Theorem unverified_request_never_reaches_the_store
    constructEvent secret updatePaymentToPaid req now (s : Store) :
  (not_ (headers req !! "stripe-signature") = true →
   POST constructEvent secret updatePaymentToPaid req now s =
     ({| status := 400; body := JObject [("error", JString "No signature header")] |}, s)) ∧
  (∀ e, fails_verification constructEvent secret req e →
   POST constructEvent secret updatePaymentToPaid req now s =
     ({| status := 500;
         body := JObject
                   [ ("error", JString "Failed to create conversation");
                     ("message", JString match e with
                                         | Error message => message
                                         | NotAnError => "Unknown error"
                                         end) ] |}, s)).
Proof.
  split.
  - apply POST_no_signature.
  - intros e Hrej. by rewrite (POST_rejected _ _ _ _ _ _ _ Hrej).
Qed.

Lemma unverified_request_never_reaches_the_store_witness :
  POST (Sample.constructEvent Sample.signed) Sample.secret (markPaymentPaid 1700000000000)
       (Sample.unsigned_request "evt_paid") 1700000000000 Sample.store =
    ({| status := 400; body := JObject [("error", JString "No signature header")] |},
     Sample.store) ∧
  POST (Sample.constructEvent Sample.signed) Sample.secret (markPaymentPaid 1700000000000)
       (Sample.request "evt_paid" "t=1,v1=forged") 1700000000000 Sample.store =
    ({| status := 500;
        body := JObject
                  [ ("error", JString "Failed to create conversation");
                    ("message",
                      JString "No signatures found matching the expected signature for payload") ] |},
     Sample.store).
Proof.
  split.
  - apply (proj1 (unverified_request_never_reaches_the_store
                    (Sample.constructEvent Sample.signed) Sample.secret
                    (markPaymentPaid 1700000000000)
                    (Sample.unsigned_request "evt_paid") 1700000000000 Sample.store)).
    reflexivity.
  - apply (proj2 (unverified_request_never_reaches_the_store
                    (Sample.constructEvent Sample.signed) Sample.secret
                    (markPaymentPaid 1700000000000)
                    (Sample.request "evt_paid" "t=1,v1=forged") 1700000000000 Sample.store)
                 (Error "No signatures found matching the expected signature for payload")).
    split; reflexivity.
Defined.

(** C6, as stated, fails: the claim is that an event whose [paymentId] names
    no Payment gets a 400/404-equivalent response.  The store primitive's
    exception reaches the handler's [catch], which answers 500. *)
Lemma unknown_payment_is_not_400_nor_404 :
  let req := Sample.request "evt_paid" "t=1,v1=aa" in
  let response :=
    (endpoint (Sample.constructEvent Sample.signed) Sample.secret req 1700000000000 ∅).1 in
  verifies (Sample.constructEvent Sample.signed) Sample.secret req
           (Sample.succeeded 12345 Sample.both_ids) ∧
  (∅ : Store) !! "p1" = None ∧
  ¬ (status response = 400 ∨ status response = 404).
Proof.
  split; [split; reflexivity|]. split; [reflexivity|].
  vm_compute. intros [?|?]; discriminate.
Qed.

(** C6, amended: a verified [charge.succeeded] event that passes the
    correlation check and whose [paymentId] names no Payment (or is missing)
    gets the 500 response of the [catch] block, carrying the message of the
    store's error, and the table is untouched. *)
Theorem unknown_payment_is_surfaced_as_500
    constructEvent secret req now (s : Store) event :
  verifies constructEvent secret req event →
  Stripe.type event = "charge.succeeded" →
  not_ (Stripe.metadata_get (Stripe.data_object event) "orderId") = false →
  (∀ pid, Stripe.metadata_get (Stripe.data_object event) "paymentId" = Some pid →
          s !! pid = None) →
  endpoint constructEvent secret req now s =
    ({| status := 500;
        body := JObject [ ("error", JString "Failed to create conversation");
                          ("message", JString "UnknownPayment") ] |}, s).
Proof.
  intros Hver Hty Hord Hunknown. unfold endpoint.
  rewrite (POST_update _ _ _ _ _ _ _ Hver Hty Hord).
  rewrite markPaymentPaid_unknown; [done|].
  destruct (Stripe.metadata_get _ "paymentId") as [pid|]; [|done].
  by apply Hunknown.
Qed.

Lemma unknown_payment_is_surfaced_as_500_witness :
  endpoint (Sample.constructEvent Sample.signed) Sample.secret
           (Sample.request "evt_paid" "t=1,v1=aa") 1700000000000 ∅ =
    ({| status := 500;
        body := JObject [ ("error", JString "Failed to create conversation");
                          ("message", JString "UnknownPayment") ] |}, ∅).
Proof.
  apply (unknown_payment_is_surfaced_as_500
           (Sample.constructEvent Sample.signed) Sample.secret
           (Sample.request "evt_paid" "t=1,v1=aa") 1700000000000 ∅
           (Sample.succeeded 12345 Sample.both_ids)).
  - split; reflexivity.
  - reflexivity.
  - reflexivity.
  - intros pid Hpid. apply lookup_empty.
Defined.

(** C7: a verified [charge.succeeded] event whose payload lacks the
    correlation metadata (no metadata, or none under [orderId]) gets the 400
    response, and the table is untouched, whatever the store primitive. *)
Theorem missing_correlation_is_400
    constructEvent secret updatePaymentToPaid req now (s : Store) event :
  verifies constructEvent secret req event →
  Stripe.type event = "charge.succeeded" →
  Stripe.metadata_get (Stripe.data_object event) "orderId" = None →
  POST constructEvent secret updatePaymentToPaid req now s =
    ({| status := 400;
        body := JObject [("error", JString "No orderId found in payment metadata")] |}, s).
Proof.
  intros Hver Hty Hnone.
  apply (POST_no_orderId _ _ _ _ _ _ _ Hver Hty). by rewrite Hnone.
Qed.

Lemma missing_correlation_is_400_witness :
  POST (Sample.constructEvent Sample.signed) Sample.secret (markPaymentPaid 1700000000000)
       (Sample.request "evt_no_metadata" "t=1,v1=cc") 1700000000000 Sample.store =
    ({| status := 400;
        body := JObject [("error", JString "No orderId found in payment metadata")] |},
     Sample.store).
Proof.
  apply (missing_correlation_is_400
           (Sample.constructEvent Sample.signed) Sample.secret
           (markPaymentPaid 1700000000000)
           (Sample.request "evt_no_metadata" "t=1,v1=cc") 1700000000000 Sample.store
           (Sample.succeeded 12345 None)).
  - split; reflexivity.
  - reflexivity.
  - reflexivity.
Defined.

(** C8: a verified event of any type other than [charge.succeeded] gets a
    200 response with the message "event is not charge.succeeded", never an
    error, and the table is untouched, whatever the store primitive. *)
Theorem other_event_is_acknowledged
    constructEvent secret updatePaymentToPaid req now (s : Store) event :
  verifies constructEvent secret req event →
  Stripe.type event ≠ "charge.succeeded" →
  POST constructEvent secret updatePaymentToPaid req now s =
    ({| status := 200;
        body := JObject [("message", JString "event is not charge.succeeded")] |}, s).
Proof. intros Hver Hty. by apply (POST_other_event _ _ _ _ _ _ event). Qed.

Lemma other_event_is_acknowledged_witness :
  POST (Sample.constructEvent Sample.signed) Sample.secret (markPaymentPaid 1700000000000)
       (Sample.request "evt_other" "t=1,v1=bb") 1700000000000 Sample.store =
    ({| status := 200;
        body := JObject [("message", JString "event is not charge.succeeded")] |},
     Sample.store).
Proof.
  apply (other_event_is_acknowledged
           (Sample.constructEvent Sample.signed) Sample.secret
           (markPaymentPaid 1700000000000)
           (Sample.request "evt_other" "t=1,v1=bb") 1700000000000 Sample.store
           Sample.refunded).
  - split; reflexivity.
  - discriminate.
Defined.

(** C9: every Payment keeps the state invariant under any sequence of
    deliveries.  If [paidAt] is set exactly when [isPaid] holds for every
    row at the start, so it is after every run; and a row that is paid at
    some point of a run is the very same row at every later point: [isPaid]
    never goes back to false and the transition to paid, with its [paidAt],
    is made at most once. *)
Theorem payment_state_invariant constructEvent secret (s : Store) :
  map_Forall (λ _, payment_inv) s →
  (∀ ds, map_Forall (λ _, payment_inv) (run constructEvent secret ds s)) ∧
  (∀ ds ds' pid p,
     run constructEvent secret ds s !! pid = Some p →
     isPaid p = true →
     run constructEvent secret (ds ++ ds') s !! pid = Some p).
Proof.
  intros Hinv. split.
  - intros ds. by apply run_inv.
  - intros ds ds' pid p Hp Hpaid. rewrite run_app. by apply run_settled.
Qed.

Lemma payment_state_invariant_witness :
  let c := Sample.constructEvent Sample.signed in
  let first := (Sample.request "evt_paid" "t=1,v1=aa", 1700000000000) in
  let again := (Sample.request "evt_paid" "t=1,v1=aa", 1700000060000) in
  let other := (Sample.request "evt_other" "t=1,v1=bb", 1700000120000) in
  map_Forall (λ _, payment_inv)
    (run c Sample.secret [first; again; other] Sample.store) ∧
  run c Sample.secret ([first] ++ [again; other]) Sample.store !! "p1" =
    Some (paid Sample.pending 1700000000000
            (payment_result (Sample.charge 12345 Sample.both_ids) 1700000000000)).
Proof.
  intros c first again other.
  assert (Hinv : map_Forall (λ _, payment_inv) Sample.store).
  { apply map_Forall_singleton. split; [discriminate|].
    intros [t Ht]. discriminate. }
  split.
  - apply (proj1 (payment_state_invariant c Sample.secret Sample.store Hinv)).
  - apply (proj2 (payment_state_invariant c Sample.secret Sample.store Hinv));
      reflexivity.
Defined.

(** * Further properties of the handler *)

Lemma reaches_store_true constructEvent secret req :
  reaches_store constructEvent secret req = true →
  ∃ event, verifies constructEvent secret req event ∧
           Stripe.type event = "charge.succeeded" ∧
           not_ (Stripe.metadata_get (Stripe.data_object event) "orderId") = false.
Proof.
  unfold reaches_store, verifies. intros H.
  apply andb_prop in H as [Hsig H]. apply negb_true_iff in Hsig.
  destruct (constructEvent _ _ _) as [e|event]; [done|].
  apply andb_prop in H as [Hty Hord]. apply negb_true_iff in Hord.
  apply String.eqb_eq in Hty. by exists event.
Qed.

Lemma reaches_store_false constructEvent secret updatePaymentToPaid req now (s : Store) :
  reaches_store constructEvent secret req = false →
  (POST constructEvent secret updatePaymentToPaid req now s).2 = s ∧
  (POST constructEvent secret updatePaymentToPaid req now s).1 ≠
    {| status := 200;
       body := JObject [("message", JString "updateOrderToPaid was successful")] |}.
Proof.
  unfold reaches_store, POST, try_catch, POST_try, bind, lift.
  destruct (not_ (headers req !! "stripe-signature")); [done|].
  destruct (constructEvent _ _ _) as [e|event]; [done|].
  destruct (String.eqb _ _); [|done].
  by destruct (not_ (Stripe.metadata_get _ "orderId")).
Qed.

(** X1: whatever the request, the SDK and the store primitive do, the
    response is a 200 with a [message], a 400 with an [error], or the 500 of
    the [catch] block with [error] and [message]. *)
Theorem POST_answers_200_400_or_500
    constructEvent secret updatePaymentToPaid req now (s : Store) :
  let r := (POST constructEvent secret updatePaymentToPaid req now s).1 in
  (status r = 200 ∧ ∃ m, body r = JObject [("message", JString m)]) ∨
  (status r = 400 ∧ ∃ m, body r = JObject [("error", JString m)]) ∨
  (status r = 500 ∧
   ∃ m, body r = JObject [ ("error", JString "Failed to create conversation");
                           ("message", JString m) ]).
Proof.
  unfold POST, try_catch, POST_try, bind, lift. simpl.
  destruct (not_ (headers req !! "stripe-signature")); [right; left; eauto|].
  destruct (constructEvent _ _ _) as [e|event]; [right; right; simpl; eauto|].
  destruct (String.eqb _ _); [|left; eauto].
  destruct (not_ (Stripe.metadata_get _ "orderId")); [right; left; eauto|].
  simpl. destruct (updatePaymentToPaid _ _ s) as [[e|[]] s'].
  - right; right; simpl; eauto.
  - left; simpl; eauto.
Qed.

(** X2: over any store primitive, the table comes back changed only if the
    request was signed, the SDK accepted it, the event is a
    [charge.succeeded] with a truthy [orderId]; and then the change is the
    one made by a single call of the primitive with [metadata.paymentId] and
    the payment result of the charge. *)
Theorem store_changes_only_through_the_primitive
    constructEvent secret updatePaymentToPaid req now (s : Store) :
  (POST constructEvent secret updatePaymentToPaid req now s).2 ≠ s →
  ∃ event,
    verifies constructEvent secret req event ∧
    Stripe.type event = "charge.succeeded" ∧
    not_ (Stripe.metadata_get (Stripe.data_object event) "orderId") = false ∧
    (POST constructEvent secret updatePaymentToPaid req now s).2 =
      (updatePaymentToPaid
         (Stripe.metadata_get (Stripe.data_object event) "paymentId")
         (payment_result (Stripe.data_object event) now) s).2.
Proof.
  intros Hchanged.
  destruct (reaches_store constructEvent secret req) eqn:Hreach.
  - destruct (reaches_store_true _ _ _ Hreach) as (event & Hver & Hty & Hord).
    exists event. repeat split; try done; try apply Hver.
    rewrite (POST_update _ _ _ _ _ _ _ Hver Hty Hord).
    by destruct (updatePaymentToPaid _ _ s) as [[e|[]] s'].
  - by destruct (reaches_store_false _ _ updatePaymentToPaid req now s Hreach).
Qed.

Lemma store_changes_only_through_the_primitive_witness :
  ∃ event,
    verifies (Sample.constructEvent Sample.signed) Sample.secret
             (Sample.request "evt_paid" "t=1,v1=aa") event ∧
    Stripe.type event = "charge.succeeded" ∧
    not_ (Stripe.metadata_get (Stripe.data_object event) "orderId") = false ∧
    (POST (Sample.constructEvent Sample.signed) Sample.secret
          (markPaymentPaid 1700000000000)
          (Sample.request "evt_paid" "t=1,v1=aa") 1700000000000 Sample.store).2 =
      (markPaymentPaid 1700000000000
         (Stripe.metadata_get (Stripe.data_object event) "paymentId")
         (payment_result (Stripe.data_object event) 1700000000000) Sample.store).2.
Proof.
  apply (store_changes_only_through_the_primitive
           (Sample.constructEvent Sample.signed) Sample.secret
           (markPaymentPaid 1700000000000)
           (Sample.request "evt_paid" "t=1,v1=aa") 1700000000000 Sample.store).
  intros H. apply (f_equal (λ m : Store, isPaid <$> m !! "p1")) in H.
  vm_compute in H. discriminate.
Defined.

(** X3: over any store primitive, the handler reports
    "updateOrderToPaid was successful" exactly when the request was signed
    and accepted, the event is a [charge.succeeded] with a truthy [orderId],
    and the call of the primitive returned without throwing. *)
Theorem success_is_reported_iff_the_primitive_returned
    constructEvent secret updatePaymentToPaid req now (s : Store) :
  (POST constructEvent secret updatePaymentToPaid req now s).1 =
    {| status := 200;
       body := JObject [("message", JString "updateOrderToPaid was successful")] |}
  ↔ ∃ event s',
      verifies constructEvent secret req event ∧
      Stripe.type event = "charge.succeeded" ∧
      not_ (Stripe.metadata_get (Stripe.data_object event) "orderId") = false ∧
      updatePaymentToPaid
        (Stripe.metadata_get (Stripe.data_object event) "paymentId")
        (payment_result (Stripe.data_object event) now) s = (inr tt, s').
Proof.
  split.
  - intros Hresp.
    destruct (reaches_store constructEvent secret req) eqn:Hreach.
    + destruct (reaches_store_true _ _ _ Hreach) as (event & Hver & Hty & Hord).
      rewrite (POST_update _ _ _ _ _ _ _ Hver Hty Hord) in Hresp.
      destruct (updatePaymentToPaid _ _ s) as [[e|[]] s'] eqn:Hupd; [done|].
      by exists event, s'.
    + by destruct (reaches_store_false _ _ updatePaymentToPaid req now s Hreach).
  - intros (event & s' & Hver & Hty & Hord & Hupd).
    by rewrite (POST_update _ _ _ _ _ _ _ Hver Hty Hord), Hupd.
Qed.

(** X4: the value of [orderId] is never used.  Two accepted
    [charge.succeeded] deliveries whose charges agree on id, amount, payer
    email and [metadata.paymentId], each with some truthy [orderId], have the
    same response and the same effect on the table, over any store
    primitive. *)
Theorem orderId_value_is_never_used
    constructEvent secret updatePaymentToPaid req req' now (s : Store) event event' :
  verifies constructEvent secret req event →
  verifies constructEvent secret req' event' →
  Stripe.type event = "charge.succeeded" →
  Stripe.type event' = "charge.succeeded" →
  not_ (Stripe.metadata_get (Stripe.data_object event) "orderId") = false →
  not_ (Stripe.metadata_get (Stripe.data_object event') "orderId") = false →
  Stripe.id (Stripe.data_object event) = Stripe.id (Stripe.data_object event') →
  Stripe.amount (Stripe.data_object event) = Stripe.amount (Stripe.data_object event') →
  Stripe.billing_details_email (Stripe.data_object event)
    = Stripe.billing_details_email (Stripe.data_object event') →
  Stripe.metadata_get (Stripe.data_object event) "paymentId"
    = Stripe.metadata_get (Stripe.data_object event') "paymentId" →
  POST constructEvent secret updatePaymentToPaid req now s
    = POST constructEvent secret updatePaymentToPaid req' now s.
Proof.
  intros Hver Hver' Hty Hty' Hord Hord' Hid Hamount Hemail Hpid.
  rewrite (POST_update _ _ _ _ _ _ _ Hver Hty Hord).
  rewrite (POST_update _ _ _ _ _ _ _ Hver' Hty' Hord').
  unfold payment_result, major_units.
  by rewrite Hid, Hamount, Hemail, Hpid.
Qed.

Lemma orderId_value_is_never_used_witness :
  POST (Sample.constructEvent Sample2.signed) Sample.secret (markPaymentPaid 1700000000000)
       (Sample.request "evt_paid" "t=1,v1=aa") 1700000000000 Sample.store
  = POST (Sample.constructEvent Sample2.signed) Sample.secret (markPaymentPaid 1700000000000)
         (Sample.request "evt_paid_bis" "t=2,v1=ff") 1700000000000 Sample.store.
Proof.
  apply (orderId_value_is_never_used
           (Sample.constructEvent Sample2.signed) Sample.secret
           (markPaymentPaid 1700000000000)
           (Sample.request "evt_paid" "t=1,v1=aa")
           (Sample.request "evt_paid_bis" "t=2,v1=ff") 1700000000000 Sample.store
           (Sample.succeeded 12345 Sample.both_ids)
           (Sample.succeeded 12345 (Some {[ "orderId" := "o2"; "paymentId" := "p1" ]}))).
  - split; reflexivity.
  - split; reflexivity.
  - reflexivity.
  - reflexivity.
  - reflexivity.
  - reflexivity.
  - reflexivity.
  - reflexivity.
  - reflexivity.
  - reflexivity.
Defined.

(** X5: deliveries that do not reach the store call (unsigned, rejected by
    the SDK, of another type, or without a truthy [orderId]) leave no trace:
    over any store primitive, the table after serving a list of deliveries
    is the table after serving only those that reach the store call. *)
Theorem ignored_deliveries_leave_no_trace
    constructEvent secret updatePaymentToPaid ds (s : Store) :
  serve_all constructEvent secret updatePaymentToPaid ds s =
    serve_all constructEvent secret updatePaymentToPaid
      (List.filter (λ d, reaches_store constructEvent secret d.1) ds) s.
Proof.
  revert s. induction ds as [|d ds IH]; intros s; [done|].
  simpl. destruct (reaches_store constructEvent secret d.1) eqn:Hreach.
  - simpl. apply IH.
  - destruct (reaches_store_false _ _ updatePaymentToPaid d.1 d.2 s Hreach) as [-> _].
    apply IH.
Qed.

(** X6: over any store primitive, the answer is a 500 exactly when
    something threw: the SDK while verifying the signature, or the primitive
    while handling an accepted [charge.succeeded] event with a truthy
    [orderId]. *)
Theorem server_error_iff_something_threw
    constructEvent secret updatePaymentToPaid req now (s : Store) :
  status (POST constructEvent secret updatePaymentToPaid req now s).1 = 500
  ↔ (∃ e, fails_verification constructEvent secret req e) ∨
    (∃ event e s',
       verifies constructEvent secret req event ∧
       Stripe.type event = "charge.succeeded" ∧
       not_ (Stripe.metadata_get (Stripe.data_object event) "orderId") = false ∧
       updatePaymentToPaid
         (Stripe.metadata_get (Stripe.data_object event) "paymentId")
         (payment_result (Stripe.data_object event) now) s = (inl e, s')).
Proof.
  unfold fails_verification, verifies, POST, try_catch, POST_try, bind, lift.
  destruct (not_ (headers req !! "stripe-signature")) eqn:Hsig.
  { simpl. split; [done|]. intros [(e & ? & _)|(ev & e & s' & [? _] & _)]; done. }
  destruct (constructEvent _ _ _) as [e0|event] eqn:Hev.
  { simpl. split; [|done]. intros _. left. by exists e0. }
  destruct (String.eqb_spec (Stripe.type event) "charge.succeeded") as [Hty|Hty].
  2:{ simpl. split; [done|].
      intros [(e & _ & ?)|(ev & e & s' & [_ Hev'] & Hty' & _)]; [done|].
      congruence. }
  destruct (not_ (Stripe.metadata_get _ "orderId")) eqn:Hord.
  { simpl. split; [done|].
    intros [(e & _ & ?)|(ev & e & s' & [_ Hev'] & _ & Hord' & _)]; [done|].
    congruence. }
  destruct (updatePaymentToPaid _ _ s) as [[e|[]] s'] eqn:Hupd; simpl.
  - split; [|done]. intros _. right. by exists event, e, s'.
  - split; [done|].
    intros [(e & _ & ?)|(ev & e & s'' & [_ Hev'] & _ & _ & Hupd')]; [done|].
    congruence.
Qed.

(** * The amount conversion for every amount *)

(** X7: for every charge amount from 0 up to 2^53 minor units, the string
    recorded in [pricePaid] and [amount] is the decimal numeral of the
    amount divided by 100 and rounded to the nearest whole number, halves
    upwards; the binary64 division never makes it differ. *)
Theorem major_units_rounds_to_whole_units charge :
  0 ≤ Stripe.amount charge < 2 ^ 53 →
  major_units charge = Number.digits ((Stripe.amount charge + 50) / 100).
Proof.
  intros Ha. unfold major_units.
  destruct (Z.eq_dec (Stripe.amount charge) 0) as [->|Hne]; [reflexivity|].
  destruct (div_100_nearest (Stripe.amount charge) ltac:(lia)) as (m & E & -> & HE & Hnear).
  unfold Number.toFixed. cbn [String.append].
  by rewrite (nearest_integer_half_up m E (Stripe.amount charge)) by lia.
Qed.

Lemma major_units_rounds_to_whole_units_witness :
  major_units (Sample.charge 12350 None) = Number.digits ((12350 + 50) / 100).
Proof.
  apply (major_units_rounds_to_whole_units (Sample.charge 12350 None)).
  simpl. lia.
Defined.

(** * The pages *)

Import React.

Section PageFacts.

Variable ToNumber : option string -> spec_float.
Variable session : option Auth.Session.
Variable getAll : string -> Assignments.
Variable formatId : string -> string.

Lemma rows_DeleteDialog (l : list TaskAssignment.t) :
  concat (map (elements "DeleteDialog") (map (assignment_row formatId) l)) =
    map (λ a, Element (D := Empty_set) "DeleteDialog" None
                [("id", PString (TaskAssignment.id a));
                 ("action", PRef "deleteTaskAssignment")] []) l.
Proof. induction l as [|a l IH]; [done|]. simpl. by rewrite IH. Qed.

Lemma rows_Link (l : list TaskAssignment.t) :
  concat (map (elements "Link") (map (assignment_row formatId) l)) =
    map (λ a, Element (D := Empty_set) "Link" None
                [("href", PString ("/user/dashboard/client/task-assignments/"
                                     ++ TaskAssignment.id a))]
                [Text "Edit"]) l.
Proof. induction l as [|a l IH]; [done|]. simpl. by rewrite IH. Qed.

Lemma rows_TableRow (l : list TaskAssignment.t) :
  concat (map (elements "TableRow") (map (assignment_row formatId) l)) =
    map (assignment_row formatId) l.
Proof. induction l as [|a l IH]; [done|]. simpl. by rewrite IH. Qed.

Lemma rows_Pagination (l : list TaskAssignment.t) :
  concat (map (elements "Pagination") (map (assignment_row formatId) l)) = [].
Proof. induction l as [|a l IH]; [done|]. simpl. by rewrite IH. Qed.

Lemma rows_Table (l : list TaskAssignment.t) :
  concat (map (elements "Table") (map (assignment_row formatId) l)) = [].
Proof. induction l as [|a l IH]; [done|]. simpl. by rewrite IH. Qed.

(** X8: the page redirects to [/login] exactly when the session has no
    user id (no session, no user, no id, or an empty id); the assignments
    are then not asked for. *)
Theorem page_redirects_iff_not_signed_in sp :
  ClientTaskAssignmentsPage ToNumber session getAll formatId sp = Redirected "/login"
  ↔ not_ (Auth.user_id session) = true.
Proof.
  unfold ClientTaskAssignmentsPage.
  by destruct (not_ (Auth.user_id session)).
Qed.

Lemma or_number_truthy x :
  or_number x (Number.of_Z 1) ≠ S754_nan ∧ ∀ s, or_number x (Number.of_Z 1) ≠ S754_zero s.
Proof. destruct x; simpl; split; try done; intros s'; by vm_compute. Qed.

Ltac page_elements :=
  cbn -[Number.of_Z or_number];
  repeat match goal with
         | |- context [if ?b then _ else _] => destruct b
         end;
  cbn -[Number.of_Z or_number];
  rewrite ?app_nil_r, ?rows_TableRow, ?rows_DeleteDialog, ?rows_Link,
    ?rows_Pagination, ?rows_Table, ?app_nil_r.

(** X10: for a signed-in client the table has the header row and then one
    row per assignment returned, in the order returned; there is one delete
    dialog per assignment, carrying its id, and one edit link per assignment,
    to the path of that assignment, besides the link that removes a
    filter. *)
Theorem page_lists_every_assignment_once sp uid :
  Auth.user_id session = Some uid → uid ≠ "" →
  ∃ view,
    ClientTaskAssignmentsPage ToNumber session getAll formatId sp = Rendered view ∧
    elements "TableRow" view =
      Element "TableRow" None []
        [ Element "TableHead" None [] [Text "ID"];
          Element "TableHead" None [] [Text "NAME"];
          Element "TableHead" None [("className", PString "text-right")] [Text "PRICE"];
          Element "TableHead" None [] [Text "CATEGORY"];
          Element "TableHead" None [("className", PString "w-[100px]")] [Text "ACTIONS"] ]
      :: map (assignment_row formatId) (data (getAll uid)) ∧
    elements "DeleteDialog" view =
      map (λ a, Element "DeleteDialog" None
                  [("id", PString (TaskAssignment.id a));
                   ("action", PRef "deleteTaskAssignment")] [])
          (data (getAll uid)) ∧
    elements "Link" view =
      ((if String.eqb (or_string (query sp) "") "" then []
       else [ Element "Link" None
                [("href", PString "/user/dashboard/client/task-assignments")]
                [ Element "Button" None
                    [("variant", PString "outline"); ("size", PString "sm")]
                    [Text "Remove Filter"] ] ])
      ++ map (λ a, Element "Link" None
                     [("href", PString ("/user/dashboard/client/task-assignments/"
                                          ++ TaskAssignment.id a))]
                     [Text "Edit"])
             (data (getAll uid)))%list.
Proof.
  intros Huid Hne. unfold ClientTaskAssignmentsPage. rewrite Huid.
  cbn [not_ default]. destruct (String.eqb_spec uid ""); [done|].
  eexists. split; [reflexivity|].
  repeat split; page_elements; done.
Qed.

(** X11: for a signed-in client the pagination is rendered exactly when
    there is more than one page, and the page number it is given is never
    zero and never NaN. *)
Theorem pagination_shown_iff_more_than_one_page sp uid :
  Auth.user_id session = Some uid → uid ≠ "" →
  ∃ view page,
    ClientTaskAssignmentsPage ToNumber session getAll formatId sp = Rendered view ∧
    page ≠ S754_nan ∧ (∀ sign, page ≠ S754_zero sign) ∧
    elements "Pagination" view =
      if 1 <? totalPages (getAll uid) then
        [ Element "Pagination" None
            [("page", PNumber page);
             ("totalPages", PNumber (Number.of_Z (totalPages (getAll uid))))] [] ]
      else [].
Proof.
  intros Huid Hne. unfold ClientTaskAssignmentsPage. rewrite Huid.
  cbn [not_ default]. destruct (String.eqb_spec uid ""); [done|].
  eexists. exists (or_number (ToNumber (page sp)) (Number.of_Z 1)).
  split; [reflexivity|].
  split; [apply or_number_truthy|]. split; [apply or_number_truthy|].
  page_elements; done.
Qed.

(** X12: the search parameters do not reach the table: whatever [page],
    [query] and [category] are, the table rendered for a session is the
    same. *)
Theorem search_parameters_do_not_change_the_table sp sp' view view' :
  ClientTaskAssignmentsPage ToNumber session getAll formatId sp = Rendered view →
  ClientTaskAssignmentsPage ToNumber session getAll formatId sp' = Rendered view' →
  elements "Table" view = elements "Table" view'.
Proof.
  unfold ClientTaskAssignmentsPage.
  destruct (not_ (Auth.user_id session)); [done|].
  intros [= <-] [= <-]. page_elements; done.
Qed.

(** X9: the page shows the assignments of the signed-in client only: two
    versions of the action that agree on the client id of the session give
    the same page. *)
Theorem page_reads_only_the_signed_in_client (getAll' : string → Assignments) sp uid :
  Auth.user_id session = Some uid →
  getAll uid = getAll' uid →
  ClientTaskAssignmentsPage ToNumber session getAll formatId sp
    = ClientTaskAssignmentsPage ToNumber session getAll' formatId sp.
Proof.
  intros Huid Heq. unfold ClientTaskAssignmentsPage. rewrite Huid.
  change (default "" (Some uid)) with uid. by rewrite Heq.
Qed.

End PageFacts.

Lemma page_reads_only_the_signed_in_client_witness :
  ClientTaskAssignmentsPage SamplePage.ToNumber SamplePage.signed_in
    SamplePage.getAll SamplePage.formatId SamplePage.filtered
  = ClientTaskAssignmentsPage SamplePage.ToNumber SamplePage.signed_in
      SamplePage.getAll' SamplePage.formatId SamplePage.filtered.
Proof.
  apply (page_reads_only_the_signed_in_client
           SamplePage.ToNumber SamplePage.signed_in SamplePage.getAll
           SamplePage.formatId SamplePage.getAll' SamplePage.filtered "u1").
  - reflexivity.
  - reflexivity.
Defined.

Lemma page_lists_every_assignment_once_witness :
  ∃ view,
    ClientTaskAssignmentsPage SamplePage.ToNumber SamplePage.signed_in
      SamplePage.getAll SamplePage.formatId SamplePage.filtered = Rendered view ∧
    elements "TableRow" view =
      Element "TableRow" None []
        [ Element "TableHead" None [] [Text "ID"];
          Element "TableHead" None [] [Text "NAME"];
          Element "TableHead" None [("className", PString "text-right")] [Text "PRICE"];
          Element "TableHead" None [] [Text "CATEGORY"];
          Element "TableHead" None [("className", PString "w-[100px]")] [Text "ACTIONS"] ]
      :: map (assignment_row SamplePage.formatId) (data (SamplePage.getAll "u1")) ∧
    elements "DeleteDialog" view =
      map (λ a, Element "DeleteDialog" None
                  [("id", PString (TaskAssignment.id a));
                   ("action", PRef "deleteTaskAssignment")] [])
          (data (SamplePage.getAll "u1")) ∧
    elements "Link" view =
      ((if String.eqb (or_string (query SamplePage.filtered) "") "" then []
        else [ Element "Link" None
                 [("href", PString "/user/dashboard/client/task-assignments")]
                 [ Element "Button" None
                     [("variant", PString "outline"); ("size", PString "sm")]
                     [Text "Remove Filter"] ] ])
       ++ map (λ a, Element "Link" None
                      [("href", PString ("/user/dashboard/client/task-assignments/"
                                           ++ TaskAssignment.id a))]
                      [Text "Edit"])
              (data (SamplePage.getAll "u1")))%list.
Proof.
  apply (page_lists_every_assignment_once
           SamplePage.ToNumber SamplePage.signed_in SamplePage.getAll
           SamplePage.formatId SamplePage.filtered "u1").
  - reflexivity.
  - discriminate.
Defined.

Lemma pagination_shown_iff_more_than_one_page_witness :
  ∃ view page,
    ClientTaskAssignmentsPage SamplePage.ToNumber SamplePage.signed_in
      SamplePage.getAll SamplePage.formatId SamplePage.filtered = Rendered view ∧
    page ≠ S754_nan ∧ (∀ sign, page ≠ S754_zero sign) ∧
    elements "Pagination" view =
      if 1 <? totalPages (SamplePage.getAll "u1") then
        [ Element "Pagination" None
            [("page", PNumber page);
             ("totalPages", PNumber (Number.of_Z (totalPages (SamplePage.getAll "u1"))))]
            [] ]
      else [].
Proof.
  apply (pagination_shown_iff_more_than_one_page
           SamplePage.ToNumber SamplePage.signed_in SamplePage.getAll
           SamplePage.formatId SamplePage.filtered "u1").
  - reflexivity.
  - discriminate.
Defined.

Lemma search_parameters_do_not_change_the_table_witness :
  ∃ view view',
    ClientTaskAssignmentsPage SamplePage.ToNumber SamplePage.signed_in
      SamplePage.getAll SamplePage.formatId SamplePage.filtered = Rendered view ∧
    ClientTaskAssignmentsPage SamplePage.ToNumber SamplePage.signed_in
      SamplePage.getAll SamplePage.formatId SamplePage.plain = Rendered view' ∧
    elements "Table" view = elements "Table" view'.
Proof.
  eexists _, _. split; [reflexivity|]. split; [reflexivity|].
  apply (search_parameters_do_not_change_the_table
           SamplePage.ToNumber SamplePage.signed_in SamplePage.getAll
           SamplePage.formatId SamplePage.filtered SamplePage.plain).
  - reflexivity.
  - reflexivity.
Defined.

(** The header always links to the home page, and links to the dashboard
    exactly when the session has a user. *)
Lemma header_links (Category : Type) APP_NAME (allCategories : list Category)
    session categories :
  map (prop "href")
      (elements "Link" (Header Category APP_NAME allCategories session categories)) =
    Some (PString "/")
    :: (if Auth.has_user session then [Some (PString "/user/dashboard")] else []).
Proof. unfold Header. by destruct (Auth.has_user session). Qed.

Lemma user_id_has_user session uid :
  Auth.user_id session = Some uid → Auth.has_user session = true.
Proof.
  unfold Auth.user_id, Auth.has_user.
  by destruct (session ≫= Auth.user).
Qed.

(** X13: whoever gets the assignments page rendered, rather than a
    redirect, also gets the dashboard link in the header. *)
Theorem page_rendered_implies_dashboard_link
    (Category : Type) APP_NAME (allCategories : list Category) categories
    ToNumber session getAll formatId sp view :
  ClientTaskAssignmentsPage ToNumber session getAll formatId sp = Rendered view →
  Some (PString "/user/dashboard") ∈
    map (prop "href")
        (elements "Link" (Header Category APP_NAME allCategories session categories)).
Proof.
  unfold ClientTaskAssignmentsPage.
  destruct (Auth.user_id session) as [uid|] eqn:Huid; [|done].
  intros _. rewrite header_links, (user_id_has_user _ _ Huid). set_solver.
Qed.

Lemma page_rendered_implies_dashboard_link_witness :
  Some (PString "/user/dashboard") ∈
    map (prop "href")
        (elements "Link"
           (Header string "Neighbours" ["Cleaning"; "Gardening"] SamplePage.signed_in None)).
Proof.
  eapply (page_rendered_implies_dashboard_link
            string "Neighbours" ["Cleaning"; "Gardening"] None
            SamplePage.ToNumber SamplePage.signed_in SamplePage.getAll
            SamplePage.formatId SamplePage.plain).
  reflexivity.
Defined.

(** X14: the converse fails for a session whose user has no id (or an
    empty one): the header, which looks at the user only, offers the
    dashboard link, and the page, which looks at the id, redirects to
    [/login]. *)
Theorem dashboard_link_offered_but_page_redirects
    (Category : Type) APP_NAME (allCategories : list Category) categories
    ToNumber session getAll formatId sp :
  Auth.has_user session = true →
  not_ (Auth.user_id session) = true →
  Some (PString "/user/dashboard") ∈
    map (prop "href")
        (elements "Link" (Header Category APP_NAME allCategories session categories)) ∧
  ClientTaskAssignmentsPage ToNumber session getAll formatId sp = Redirected "/login".
Proof.
  intros Huser Hid. split.
  - rewrite header_links, Huser. set_solver.
  - unfold ClientTaskAssignmentsPage. by rewrite Hid.
Qed.

Lemma dashboard_link_offered_but_page_redirects_witness :
  Some (PString "/user/dashboard") ∈
    map (prop "href")
        (elements "Link"
           (Header string "Neighbours" ["Cleaning"; "Gardening"] SamplePage.nameless None)) ∧
  ClientTaskAssignmentsPage SamplePage.ToNumber SamplePage.nameless SamplePage.getAll
    SamplePage.formatId SamplePage.plain = Redirected "/login".
Proof.
  apply (dashboard_link_offered_but_page_redirects
           string "Neighbours" ["Cleaning"; "Gardening"] None
           SamplePage.ToNumber SamplePage.nameless SamplePage.getAll
           SamplePage.formatId SamplePage.plain).
  - reflexivity.
  - reflexivity.
Defined.
